(** * The [@Component] decorator handler of ngtsc

    A shallow embedding of
    [packages/compiler-cli/src/ngtsc/annotations/src/component.ts]:
    the class [ComponentDecoratorHandler] with its three methods [detect],
    [analyze] and [compile], and the module constant [EMPTY_MAP].

    How the TypeScript is read:
    - a JavaScript object that the handler builds with object spread is a
      finite map from property names to values ([gmap string Value]); a
      spread [{...a, ...b}] is the union in which [b] wins;
    - a JavaScript [Map] that is stored in such an object is a reference
      into a store of maps, so that two properties holding the same [Map]
      are seen to alias;
    - [throw new Error(msg)] ends the method with [Thrown (Error msg)];
    - the selector scope registry is the one piece of state the handler
      writes; every method is a function from the world before the call to
      an outcome, the world after it, and the calls made to the imported
      functions, in order;
    - what the file imports ([typescript], [@angular/compiler],
      [../../host], [../../metadata], [./directive], [./selector_scope],
      [./util]) is taken as a parameter, with the signatures the handler
      uses. *)

From Stdlib Require Import String List Bool.
From stdpp Require Import gmap strings list fin_maps.

Local Open Scope string_scope.
Local Set Warnings "-register-all".

(** ** Imported types *)

(** The types of the imported libraries that the handler only passes
    around. *)
Class HostTypes := {
  (* typescript *)
  ts_Expression : Type;
  ts_ClassDeclaration : Type;
  ts_TypeChecker : Type;
  (* ../../host *)
  ReflectionHost : Type;
  Import : Type;
  (* @angular/compiler *)
  ParsedTemplate : Type;
  ParseError : Type;
  ConstantPool : Type;
  BindingParser : Type;
  Expression : Type;
  Statement : Type;
  Type_ : Type;
  (* any other object of the host program *)
  HostObject : Type;
}.

(** A reference to a JavaScript [Map] object. *)
Definition MapRef := positive.

Section Values.
Context `{HostTypes}.

(** JavaScript values, as far as the handler tells them apart. *)
Inductive Value :=
| VUndefined
| VNull
| VBoolean (b : bool)
| VNumber (n : Z)
| VString (s : string)
| VArray (elements : list Value)
| VMap (ref : MapRef)
| VTemplate (t : ParsedTemplate)
| VExpression (e : Expression)
| VObject (o : HostObject).

(** [typeof v], on the values above. *)
Definition typeof (v : Value) : string :=
  match v with
  | VUndefined => "undefined"
  | VBoolean _ => "boolean"
  | VNumber _ => "number"
  | VString _ => "string"
  | VNull | VArray _ | VMap _ | VTemplate _ | VExpression _ | VObject _ =>
      "object"
  end.

(** [o.k]: reading a property that is not there gives [undefined]. *)
Definition prop (k : string) (o : gmap string Value) : Value :=
  default VUndefined (o !! k).

(** [{...a, ...b}]: the properties of [b] override those of [a]. *)
Definition spread (a b : gmap string Value) : gmap string Value := b ∪ a.

(** [interface Decorator] of [../../host]. *)
Record Decorator := {
  Decorator_name : string;
  Decorator_import : option Import;
  Decorator_args : option (list ts_Expression);
}.

(** [AnalysisOutput<A>]: [{}] is [None], [{analysis: a}] is [Some a]. *)
Record AnalysisOutput := { analysis : option (gmap string Value) }.

(** [CompileResult] of [../../transform]. *)
Record CompileResult := {
  CompileResult_name : string;
  CompileResult_initializer : Expression;
  CompileResult_statements : list Statement;
  CompileResult_type : Type_;
}.

(** What [compileComponentFromMetadata] returns. *)
Record R3ComponentDef := {
  R3ComponentDef_expression : Expression;
  R3ComponentDef_type : Type_;
}.

(** The store of [Map] objects: what each reference currently holds. *)
Definition MapStore := gmap MapRef (gmap string Value).

(** [map.set(k, v)] on the [Map] behind a reference. *)
Definition Map_set (ref : MapRef) (k : string) (v : Value)
    (store : MapStore) : MapStore :=
  alter (insert k v) ref store.

(** The entries of the [Map] behind a value; no entries when the value is
    not a [Map] of the store. *)
Definition Map_entries (store : MapStore) (v : Value) : gmap string Value :=
  match v with
  | VMap ref => default ∅ (store !! ref)
  | _ => ∅
  end.

End Values.

(** ** Imported functions *)

Class Collaborators `{HostTypes} := {
  (* typescript *)
  ts_isObjectLiteralExpression : ts_Expression -> bool;
  (* [node.name!.text] and [node.getSourceFile().fileName]; the handler
     asserts with [!] that the class has a name *)
  name_text : ts_ClassDeclaration -> string;
  getSourceFile_fileName : ts_ClassDeclaration -> string;
  (* ./util *)
  isAngularCore : Decorator -> bool;
  (* ./directive: [undefined] is [None] *)
  extractDirectiveMetadata :
    ts_ClassDeclaration -> Decorator -> ts_TypeChecker -> ReflectionHost ->
    option (gmap string Value);
  (* ../../metadata *)
  reflectObjectLiteral : ts_Expression -> gmap string ts_Expression;
  staticallyResolve : ts_Expression -> ts_TypeChecker -> Value;
  (* @angular/compiler *)
  parseTemplate : string -> string -> bool -> ParsedTemplate;
  ParsedTemplate_errors : ParsedTemplate -> option (list ParseError);
  ParseError_toString : ParseError -> string;
  ConstantPool_new : ConstantPool;
  ConstantPool_statements : ConstantPool -> list Statement;
  makeBindingParser : BindingParser;
  (* reads the metadata and the maps it refers to, fills the pool *)
  compileComponentFromMetadata :
    MapStore -> gmap string Value -> ConstantPool -> BindingParser ->
    R3ComponentDef * ConstantPool;
}.

(** [class SelectorScopeRegistry] of [./selector_scope], as the handler uses
    it: a state, a write and a read ([null] is [None]). *)
Class SelectorScopeRegistry `{HostTypes} := {
  Registry : Type;
  registerSelector : ts_ClassDeclaration -> Value -> Registry -> Registry;
  lookupCompilationScope :
    ts_ClassDeclaration -> Registry -> option (gmap string Value);
}.

(** ** Effects *)

(** [new Error(message)]. *)
Inductive JsError := Error (message : string).

Definition JsError_message (e : JsError) : string :=
  match e with Error m => m end.

(** How a method ends. *)
Inductive Outcome (A : Type) :=
| Returned (a : A)
| Thrown (e : JsError).
Arguments Returned {A} a.
Arguments Thrown {A} e.

Section Effects.
Context `{HT : HostTypes} `{!Collaborators} `{!SelectorScopeRegistry}.

(** The mutable state around the handler. *)
Record World := {
  scopeRegistry : Registry;
  maps : MapStore;
}.

(** A call of an imported function, with its arguments. *)
Inductive Call :=
| Call_extractDirectiveMetadata (node : ts_ClassDeclaration) (d : Decorator)
| Call_reflectObjectLiteral (meta : ts_Expression)
| Call_staticallyResolve (e : ts_Expression)
| Call_parseTemplate (template url : string) (preserveWhitespaces : bool)
| Call_registerSelector (node : ts_ClassDeclaration) (selector : Value)
| Call_lookupCompilationScope (node : ts_ClassDeclaration)
| Call_compileComponentFromMetadata
    (meta : gmap string Value) (pool : ConstantPool) (parser : BindingParser).

(** A method body: from the world to an outcome, the new world and the
    calls made. *)
Definition M (A : Type) : Type := World -> Outcome A * World * list Call.

Definition ret {A} (a : A) : M A := fun w => (Returned a, w, []).

Definition throw {A} (e : JsError) : M A := fun w => (Thrown e, w, []).

Definition bind {A B} (m : M A) (k : A -> M B) : M B := fun w =>
  match m w with
  | (Returned a, w1, t1) =>
      match k a w1 with
      | (o, w2, t2) => (o, w2, (t1 ++ t2)%list)
      end
  | (Thrown e, w1, t1) => (Thrown e, w1, t1)
  end.

(** A call of an imported function that has no effect on the world. *)
Definition call {A} (c : Call) (result : A) : M A :=
  fun w => (Returned result, w, [c]).

Definition outcome {A} (r : Outcome A * World * list Call) : Outcome A :=
  fst (fst r).
Definition world_after {A} (r : Outcome A * World * list Call) : World :=
  snd (fst r).
Definition calls {A} (r : Outcome A * World * list Call) : list Call :=
  snd r.

End Effects.

Declare Scope js_scope.
Delimit Scope js_scope with js.
Notation "x <- m ;; k" := (bind m (fun x => k))
  (at level 100, m at next level, right associativity) : js_scope.

(** ** The handler *)

(** [const EMPTY_MAP = new Map<string, Expression>()]: one [Map] object,
    made when the module is loaded. *)
Definition EMPTY_MAP : MapRef := 1%positive.

Section Handler.
Context `{HT : HostTypes} `{!Collaborators} `{!SelectorScopeRegistry}.

(** The store of maps right after the module is loaded. *)
Definition module_maps : MapStore := {[ EMPTY_MAP := ∅ ]}.

(** The constructor's [checker] and [reflector]; its [scopeRegistry] is an
    object that is written to, and lives in the [World]. *)
Record ComponentDecoratorHandler := {
  checker : ts_TypeChecker;
  reflector : ReflectionHost;
}.

(** The imported functions as calls. *)
Definition do_extractDirectiveMetadata node decorator chk rfl :
    M (option (gmap string Value)) :=
  call (Call_extractDirectiveMetadata node decorator)
       (extractDirectiveMetadata node decorator chk rfl).

Definition do_reflectObjectLiteral meta : M (gmap string ts_Expression) :=
  call (Call_reflectObjectLiteral meta) (reflectObjectLiteral meta).

Definition do_staticallyResolve e chk : M Value :=
  call (Call_staticallyResolve e) (staticallyResolve e chk).

Definition do_parseTemplate template url preserveWhitespaces :
    M ParsedTemplate :=
  call (Call_parseTemplate template url preserveWhitespaces)
       (parseTemplate template url preserveWhitespaces).

Definition do_registerSelector node selector : M unit := fun w =>
  (Returned tt,
   {| scopeRegistry := registerSelector node selector (scopeRegistry w);
      maps := maps w |},
   [Call_registerSelector node selector]).

Definition do_lookupCompilationScope node : M (option (gmap string Value)) :=
  fun w =>
    (Returned (lookupCompilationScope node (scopeRegistry w)), w,
     [Call_lookupCompilationScope node]).

Definition do_compileComponentFromMetadata meta pool parser :
    M (R3ComponentDef * ConstantPool) := fun w =>
  (Returned (compileComponentFromMetadata (maps w) meta pool parser), w,
   [Call_compileComponentFromMetadata meta pool parser]).

(** [detect]: the first decorator called [Component] that comes from the
    Angular core. *)
Definition detect (decorators : list Decorator) : option Decorator :=
  List.find
    (fun decorator =>
       String.eqb (Decorator_name decorator) "Component"
       && isAngularCore decorator)
    decorators.

(** The template's source locator,
    [`${node.getSourceFile().fileName}#${node.name!.text}/template.html`]. *)
Definition template_url (node : ts_ClassDeclaration) : string :=
  getSourceFile_fileName node +:+ "#" +:+ name_text node +:+ "/template.html".

(** The [preserveWhitespaces] block of [analyze] (lines 67 to 74). *)
Definition resolve_preserveWhitespaces (this : ComponentDecoratorHandler)
    (component : gmap string ts_Expression) : M bool :=
  (match component !! "preserveWhitespaces" with
   | Some e =>
       value <- do_staticallyResolve e (checker this) ;;
       match value with
       | VBoolean b => ret b
       | _ =>
           throw (Error
             "preserveWhitespaces must resolve to a boolean if present")
       end
   | None => ret false
   end)%js.

(** The object that [analyze] returns as [analysis]:
    [{...directiveMetadata, template, viewQueries: [], pipes: EMPTY_MAP,
      directives: EMPTY_MAP}]. *)
Definition component_metadata (directiveMetadata : gmap string Value)
    (template : ParsedTemplate) : gmap string Value :=
  <["directives" := VMap EMPTY_MAP]>
    (<["pipes" := VMap EMPTY_MAP]>
       (<["viewQueries" := VArray []]>
          (<["template" := VTemplate template]> directiveMetadata))).

(** [analyze]. The arguments get past the test
    [args === null || args.length !== 1] exactly when they are a one-element
    array, whose element is [args[0]]; every other shape throws. *)
Definition analyze (this : ComponentDecoratorHandler)
    (node : ts_ClassDeclaration) (decorator : Decorator) : M AnalysisOutput :=
  (match Decorator_args decorator with
   | Some [meta] =>
       if negb (ts_isObjectLiteralExpression meta) then
         throw (Error "Decorator argument must be literal.")
       else
         directiveMetadata <-
           do_extractDirectiveMetadata node decorator
             (checker this) (reflector this) ;;
         match directiveMetadata with
         | None => ret {| analysis := None |}
         | Some directiveMetadata =>
             component <- do_reflectObjectLiteral meta ;;
             match component !! "template" with
             | None =>
                 throw (Error
                   "For now, components must directly have a template.")
             | Some templateExpr =>
                 templateStr <-
                   do_staticallyResolve templateExpr (checker this) ;;
                 match templateStr with
                 | VString templateStr =>
                     preserveWhitespaces <-
                       resolve_preserveWhitespaces this component ;;
                     template <-
                       do_parseTemplate templateStr (template_url node)
                         preserveWhitespaces ;;
                     match ParsedTemplate_errors template with
                     | Some errors =>
                         throw (Error
                           ("Errors parsing template: " +:+
                            String.concat ", "
                              (map ParseError_toString errors)))
                     | None =>
                         _ <- match prop "selector" directiveMetadata with
                              | VNull => ret tt
                              | selector => do_registerSelector node selector
                              end ;;
                         ret {| analysis :=
                                  Some (component_metadata
                                          directiveMetadata template) |}
                     end
                 | _ =>
                     throw (Error
                       ("Template must statically resolve to a string: " +:+
                        name_text node))
                 end
             end
         end
   | _ => throw (Error "Incorrect number of arguments to @Component decorator")
   end)%js.

(** [compile]. *)
Definition compile (this : ComponentDecoratorHandler)
    (node : ts_ClassDeclaration) (analysis : gmap string Value) :
    M CompileResult :=
  (let pool := ConstantPool_new in
   scope <- do_lookupCompilationScope node ;;
   let analysis :=
     match scope with
     | Some scope => spread analysis scope
     | None => analysis
     end in
   res <- do_compileComponentFromMetadata analysis pool makeBindingParser ;;
   let '(res, pool) := res in
   ret {| CompileResult_name := "ngComponentDef";
          CompileResult_initializer := R3ComponentDef_expression res;
          CompileResult_statements := ConstantPool_statements pool;
          CompileResult_type := R3ComponentDef_type res |})%js.

End Handler.

(** ** The vocabulary of the specification *)

(** [s.includes(sub)]: [sub] occurs in [s]. *)
Fixpoint includes (sub s : string) : bool :=
  String.prefix sub s
  || match s with
     | EmptyString => false
     | String _ rest => includes sub rest
     end.

(** The specification's two kinds of error. The handler throws plain
    [Error]s; the kind is read off the message. A ConfigError is a wrong
    number of arguments, an argument that is not a literal, a missing
    template, or a field of the wrong type. *)
Definition is_ConfigError (e : JsError) : bool :=
  let m := JsError_message e in
  String.eqb m "Incorrect number of arguments to @Component decorator"
  || String.eqb m "Decorator argument must be literal."
  || String.eqb m "For now, components must directly have a template."
  || String.prefix "Template must statically resolve to a string: " m
  || String.eqb m "preserveWhitespaces must resolve to a boolean if present".

(** A TemplateParseError reports the diagnostics of the template parser. *)
Definition is_TemplateParseError (e : JsError) : bool :=
  String.prefix "Errors parsing template: " (JsError_message e).

Section Vocabulary.
Context `{HT : HostTypes} `{!Collaborators} `{!SelectorScopeRegistry}.

(** Modelled from the spec: the type [CompilationScope] that
    [lookupCompilationScope] returns is declared in [./selector_scope], which
    is not among the sources. By the specification it is "the resolved
    sibling sets" of a declaration: an object with the two properties
    [directives] and [pipes], each a [Map], and nothing else. *)
Definition CompilationScope (directives pipes : MapRef) : gmap string Value :=
  <["directives" := VMap directives]> (<["pipes" := VMap pipes]> ∅).

Definition is_CompilationScope (scope : gmap string Value) : Prop :=
  exists directives pipes, scope = CompilationScope directives pipes.

(** The sibling sets of a metadata object, read through the store. *)
Definition sibling_pipes (store : MapStore) (meta : gmap string Value) :=
  Map_entries store (prop "pipes" meta).
Definition sibling_directives (store : MapStore) (meta : gmap string Value) :=
  Map_entries store (prop "directives" meta).

(** The declaration reaches the template step of [analyze]: one argument,
    an object literal, and metadata extracted from the directive part. *)
Definition passes_argument_checks (this : ComponentDecoratorHandler)
    (node : ts_ClassDeclaration) (decorator : Decorator)
    (meta : ts_Expression) (directiveMetadata : gmap string Value) : Prop :=
  Decorator_args decorator = Some [meta]
  /\ ts_isObjectLiteralExpression meta = true
  /\ extractDirectiveMetadata node decorator (checker this) (reflector this)
     = Some directiveMetadata.

(** The placeholders of two analysed declarations do not share a [Map]:
    each property is a marker that is not a [Map] at all, or the two
    declarations hold different [Map] objects. *)
Definition placeholders_unshared (m1 m2 : gmap string Value) : Prop :=
  forall k1 k2 ref1 ref2,
    (k1 = "pipes" \/ k1 = "directives") ->
    (k2 = "pipes" \/ k2 = "directives") ->
    prop k1 m1 = VMap ref1 -> prop k2 m2 = VMap ref2 -> ref1 <> ref2.

(** The whitespace option that [analyze] hands to the parser, when the
    field is absent or resolves to a boolean; the evaluator calls made for
    it. *)
Definition preserveWhitespaces_of (this : ComponentDecoratorHandler)
    (component : gmap string ts_Expression) : option bool :=
  match component !! "preserveWhitespaces" with
  | None => Some false
  | Some e =>
      match staticallyResolve e (checker this) with
      | VBoolean b => Some b
      | _ => None
      end
  end.

Definition whitespace_calls (component : gmap string ts_Expression) :
    list Call :=
  match component !! "preserveWhitespaces" with
  | Some e => [Call_staticallyResolve e]
  | None => []
  end.

(** The ways through [analyze], one per exit: the outcome, the world after
    and the calls made on each. *)
Inductive analyze_run (this : ComponentDecoratorHandler)
    (node : ts_ClassDeclaration) (decorator : Decorator) (w : World) :
    Outcome AnalysisOutput -> World -> list Call -> Prop :=
| run_wrong_arity :
    (forall meta, Decorator_args decorator <> Some [meta]) ->
    analyze_run this node decorator w
      (Thrown (Error "Incorrect number of arguments to @Component decorator"))
      w []
| run_not_literal meta :
    Decorator_args decorator = Some [meta] ->
    ts_isObjectLiteralExpression meta = false ->
    analyze_run this node decorator w
      (Thrown (Error "Decorator argument must be literal.")) w []
| run_skipped meta :
    Decorator_args decorator = Some [meta] ->
    ts_isObjectLiteralExpression meta = true ->
    extractDirectiveMetadata node decorator (checker this) (reflector this)
    = None ->
    analyze_run this node decorator w
      (Returned {| analysis := None |}) w
      [Call_extractDirectiveMetadata node decorator]
| run_no_template meta dm :
    passes_argument_checks this node decorator meta dm ->
    reflectObjectLiteral meta !! "template" = None ->
    analyze_run this node decorator w
      (Thrown (Error "For now, components must directly have a template."))
      w
      [Call_extractDirectiveMetadata node decorator;
       Call_reflectObjectLiteral meta]
| run_template_not_string meta dm templateExpr :
    passes_argument_checks this node decorator meta dm ->
    reflectObjectLiteral meta !! "template" = Some templateExpr ->
    typeof (staticallyResolve templateExpr (checker this)) <> "string" ->
    analyze_run this node decorator w
      (Thrown (Error ("Template must statically resolve to a string: "
                      +:+ name_text node)))
      w
      [Call_extractDirectiveMetadata node decorator;
       Call_reflectObjectLiteral meta;
       Call_staticallyResolve templateExpr]
| run_whitespace_not_boolean meta dm templateExpr templateStr e :
    passes_argument_checks this node decorator meta dm ->
    reflectObjectLiteral meta !! "template" = Some templateExpr ->
    staticallyResolve templateExpr (checker this) = VString templateStr ->
    reflectObjectLiteral meta !! "preserveWhitespaces" = Some e ->
    typeof (staticallyResolve e (checker this)) <> "boolean" ->
    analyze_run this node decorator w
      (Thrown
         (Error "preserveWhitespaces must resolve to a boolean if present"))
      w
      [Call_extractDirectiveMetadata node decorator;
       Call_reflectObjectLiteral meta;
       Call_staticallyResolve templateExpr;
       Call_staticallyResolve e]
| run_parse_errors meta dm templateExpr templateStr preserveWhitespaces
    errors :
    passes_argument_checks this node decorator meta dm ->
    reflectObjectLiteral meta !! "template" = Some templateExpr ->
    staticallyResolve templateExpr (checker this) = VString templateStr ->
    preserveWhitespaces_of this (reflectObjectLiteral meta)
    = Some preserveWhitespaces ->
    ParsedTemplate_errors
      (parseTemplate templateStr (template_url node) preserveWhitespaces)
    = Some errors ->
    analyze_run this node decorator w
      (Thrown (Error ("Errors parsing template: " +:+
                      String.concat ", " (map ParseError_toString errors))))
      w
      ([Call_extractDirectiveMetadata node decorator;
        Call_reflectObjectLiteral meta;
        Call_staticallyResolve templateExpr]
       ++ whitespace_calls (reflectObjectLiteral meta)
       ++ [Call_parseTemplate templateStr (template_url node)
             preserveWhitespaces])%list
| run_analyzed meta dm templateExpr templateStr preserveWhitespaces :
    passes_argument_checks this node decorator meta dm ->
    reflectObjectLiteral meta !! "template" = Some templateExpr ->
    staticallyResolve templateExpr (checker this) = VString templateStr ->
    preserveWhitespaces_of this (reflectObjectLiteral meta)
    = Some preserveWhitespaces ->
    ParsedTemplate_errors
      (parseTemplate templateStr (template_url node) preserveWhitespaces)
    = None ->
    prop "selector" dm = VNull ->
    analyze_run this node decorator w
      (Returned
         {| analysis :=
              Some (component_metadata dm
                      (parseTemplate templateStr (template_url node)
                         preserveWhitespaces)) |})
      w
      ([Call_extractDirectiveMetadata node decorator;
        Call_reflectObjectLiteral meta;
        Call_staticallyResolve templateExpr]
       ++ whitespace_calls (reflectObjectLiteral meta)
       ++ [Call_parseTemplate templateStr (template_url node)
             preserveWhitespaces])%list
| run_analyzed_registered meta dm templateExpr templateStr
    preserveWhitespaces :
    passes_argument_checks this node decorator meta dm ->
    reflectObjectLiteral meta !! "template" = Some templateExpr ->
    staticallyResolve templateExpr (checker this) = VString templateStr ->
    preserveWhitespaces_of this (reflectObjectLiteral meta)
    = Some preserveWhitespaces ->
    ParsedTemplate_errors
      (parseTemplate templateStr (template_url node) preserveWhitespaces)
    = None ->
    prop "selector" dm <> VNull ->
    analyze_run this node decorator w
      (Returned
         {| analysis :=
              Some (component_metadata dm
                      (parseTemplate templateStr (template_url node)
                         preserveWhitespaces)) |})
      {| scopeRegistry :=
           registerSelector node (prop "selector" dm) (scopeRegistry w);
         maps := maps w |}
      ([Call_extractDirectiveMetadata node decorator;
        Call_reflectObjectLiteral meta;
        Call_staticallyResolve templateExpr]
       ++ whitespace_calls (reflectObjectLiteral meta)
       ++ [Call_parseTemplate templateStr (template_url node)
             preserveWhitespaces;
           Call_registerSelector node (prop "selector" dm)])%list.

(** A template that resolves to a string is handed to the parser. *)
Definition string_template_is_parsed (this : ComponentDecoratorHandler)
    (node : ts_ClassDeclaration) (decorator : Decorator) (w : World) : Prop :=
  forall meta dm templateExpr templateStr,
    passes_argument_checks this node decorator meta dm ->
    reflectObjectLiteral meta !! "template" = Some templateExpr ->
    staticallyResolve templateExpr (checker this) = VString templateStr ->
    exists preserveWhitespaces,
      In (Call_parseTemplate templateStr (template_url node)
            preserveWhitespaces)
         (calls (analyze this node decorator w)).

(** Every parser call of an analysis receives the whitespace option [b]. *)
Definition parser_receives (this : ComponentDecoratorHandler)
    (node : ts_ClassDeclaration) (decorator : Decorator) (w : World)
    (b : bool) : Prop :=
  forall template url preserveWhitespaces,
    In (Call_parseTemplate template url preserveWhitespaces)
       (calls (analyze this node decorator w)) ->
    preserveWhitespaces = b.

(** No parser call is made by an analysis. *)
Definition parser_not_called (this : ComponentDecoratorHandler)
    (node : ts_ClassDeclaration) (decorator : Decorator) (w : World) : Prop :=
  forall template url preserveWhitespaces,
    ~ In (Call_parseTemplate template url preserveWhitespaces)
         (calls (analyze this node decorator w)).

(** The placeholders of different declarations never share a [Map]. *)
Definition placeholders_never_shared (this : ComponentDecoratorHandler) :
    Prop :=
  forall node1 node2 decorator1 decorator2 w1 w2 m1 m2,
    node1 <> node2 ->
    outcome (analyze this node1 decorator1 w1)
    = Returned {| analysis := Some m1 |} ->
    outcome (analyze this node2 decorator2 w2)
    = Returned {| analysis := Some m2 |} ->
    placeholders_unshared m1 m2.


End Vocabulary.

(** ** Further vocabulary: decorators and calls *)

Section Calls.
Context `{HT : HostTypes} `{!Collaborators} `{!SelectorScopeRegistry}.

(** The test of [detect] on one decorator:
    [decorator.name === 'Component' && isAngularCore(decorator)]. *)
Definition is_Component (decorator : Decorator) : bool :=
  String.eqb (Decorator_name decorator) "Component"
  && isAngularCore decorator.

(** Kinds of calls. *)
Definition is_parse_call (c : Call) : bool :=
  match c with Call_parseTemplate _ _ _ => true | _ => false end.

Definition is_register_call (c : Call) : bool :=
  match c with Call_registerSelector _ _ => true | _ => false end.

Definition is_resolve_call (c : Call) : bool :=
  match c with Call_staticallyResolve _ => true | _ => false end.

Definition is_extract_call (c : Call) : bool :=
  match c with Call_extractDirectiveMetadata _ _ => true | _ => false end.


Definition count_calls (kind : Call -> bool) (t : list Call) : nat :=
  length (List.filter kind t).

(** The four properties that [analyze] sets itself. *)
Definition set_by_analyze (k : string) : bool :=
  String.eqb k "template" || String.eqb k "viewQueries"
  || String.eqb k "pipes" || String.eqb k "directives".

Definition is_reflect_call (c : Call) : bool :=
  match c with Call_reflectObjectLiteral _ => true | _ => false end.

(** The [CompileResult] that [compile] makes of what the code generator
    returns and of the pool it has filled (lines 118 to 123). *)
Definition package (generated : R3ComponentDef * ConstantPool) :
    CompileResult :=
  {| CompileResult_name := "ngComponentDef";
     CompileResult_initializer := R3ComponentDef_expression (fst generated);
     CompileResult_statements := ConstantPool_statements (snd generated);
     CompileResult_type := R3ComponentDef_type (fst generated) |}.

(** The analysis ends as the parse of [templateStr] with the whitespace
    option [b] decides: the parser is called with them, its diagnostics are
    thrown when there are any, and otherwise its template is the one of the
    returned metadata. *)
Definition parsed_with (this : ComponentDecoratorHandler)
    (node : ts_ClassDeclaration) (decorator : Decorator) (w : World)
    (dm : gmap string Value) (templateStr : string) (b : bool) : Prop :=
  let template := parseTemplate templateStr (template_url node) b in
  In (Call_parseTemplate templateStr (template_url node) b)
     (calls (analyze this node decorator w))
  /\ match ParsedTemplate_errors template with
     | Some errors =>
         outcome (analyze this node decorator w)
         = Thrown (Error ("Errors parsing template: " +:+
                          String.concat ", "
                            (map ParseError_toString errors)))
     | None =>
         outcome (analyze this node decorator w)
         = Returned {| analysis := Some (component_metadata dm template) |}
     end.





End Calls.

(** ** A small host program

    One concrete choice of the imported types and functions, on which the
    handler can be run: expressions are a few TypeScript literals, the
    template parser knows which tags are left open in three templates, and
    the registry is a pair of finite maps keyed by the position of the
    class. *)
Module Demo.

Inductive Expr :=
| ObjectLiteral (properties : list (string * Expr))
| Identifier (text : string)
| StringLiteral (text : string)
| TrueKeyword
| FalseKeyword.

Record ClassDecl := {
  decl_pos : nat;
  decl_name : string;
  decl_file : string;
}.

Record Template := {
  template_errors : option (list string);
  template_nodes : list string;
  template_preserveWhitespaces : bool;
}.

#[export] Instance types : HostTypes := {|
  ts_Expression := Expr;
  ts_ClassDeclaration := ClassDecl;
  ts_TypeChecker := unit;
  ReflectionHost := unit;
  Import := string;
  ParsedTemplate := Template;
  ParseError := string;
  ConstantPool := list string;
  BindingParser := unit;
  Expression := string;
  Statement := string;
  Type_ := string;
  HostObject := unit;
|}.

Definition properties_of (e : Expr) : gmap string Expr :=
  match e with
  | ObjectLiteral properties => list_to_map properties
  | _ => ∅
  end.

Definition resolve (e : Expr) : Value :=
  match e with
  | StringLiteral s => VString s
  | TrueKeyword => VBoolean true
  | FalseKeyword => VBoolean false
  | ObjectLiteral _ => VObject tt
  | Identifier _ => VUndefined
  end.

(** The directive part: nothing for [jit: true], else name and selector. *)
Definition extract (node : ClassDecl) (d : Decorator) : option (gmap string Value) :=
  let fields :=
    match Decorator_args d with
    | Some [meta] => properties_of meta
    | _ => ∅
    end in
  match fields !! "jit" with
  | Some TrueKeyword => None
  | _ =>
      Some (<["selector" :=
               match fields !! "selector" with
               | Some (StringLiteral s) => VString s
               | _ => VNull
               end]>
            (<["name" := VString (decl_name node)]> ∅))
  end.

Definition parse (template url : string) (preserveWhitespaces : bool) : Template :=
  {| template_errors :=
       if String.eqb template "<div>" then Some ["unclosed tag div"]
       else if String.eqb template "<p><b>"
            then Some ["unclosed tag b"; "unclosed tag p"]
       else None;
     template_nodes := [template];
     template_preserveWhitespaces := preserveWhitespaces |}.

(** The generated expression lists the selector and the names of the
    sibling directives and pipes; the pool receives one statement. *)
Definition generate (store : MapStore) (meta : gmap string Value)
    (pool : list string) (parser : unit) : R3ComponentDef * list string :=
  ({| R3ComponentDef_expression :=
        String.concat ","
          (match prop "selector" meta with VString s => s | _ => "" end
           :: (map fst (map_to_list (Map_entries store (prop "directives" meta)))
               ++ map fst (map_to_list (Map_entries store (prop "pipes" meta))))%list);
      R3ComponentDef_type := "ComponentDef" |},
   (pool ++ ["const _c0 = [];"])%list).

#[export] Instance collaborators : Collaborators := {|
  ts_isObjectLiteralExpression e :=
    match e with ObjectLiteral _ => true | _ => false end;
  name_text := decl_name;
  getSourceFile_fileName := decl_file;
  isAngularCore d :=
    match Decorator_import d with
    | Some from => String.eqb from "@angular/core"
    | None => false
    end;
  extractDirectiveMetadata node d _ _ := extract node d;
  reflectObjectLiteral := properties_of;
  staticallyResolve e _ := resolve e;
  parseTemplate := parse;
  ParsedTemplate_errors := template_errors;
  ParseError_toString e := e;
  ConstantPool_new := [];
  ConstantPool_statements pool := pool;
  makeBindingParser := tt;
  compileComponentFromMetadata := generate;
|}.

Record Reg := {
  selectors : gmap nat Value;
  scopes : gmap nat (gmap string Value);
}.

#[export] Instance registry : SelectorScopeRegistry := {|
  Registry := Reg;
  registerSelector node selector r :=
    {| selectors := <[decl_pos node := selector]> (selectors r);
       scopes := scopes r |};
  lookupCompilationScope node r := scopes r !! decl_pos node;
|}.

Definition handler : ComponentDecoratorHandler :=
  {| checker := tt; reflector := tt |}.

Definition component (args : option (list Expr)) : Decorator :=
  {| Decorator_name := "Component";
     Decorator_import := Some "@angular/core";
     Decorator_args := args |}.

Definition Foo : ClassDecl :=
  {| decl_pos := 1; decl_name := "Foo"; decl_file := "foo.ts" |}.
Definition Bar : ClassDecl :=
  {| decl_pos := 2; decl_name := "Bar"; decl_file := "bar.ts" |}.

(** [@Component({template: "<div></div>"})] *)
Definition plain : Expr :=
  ObjectLiteral [("template", StringLiteral "<div></div>")].

(** [@Component({selector: "bar", template: "<p></p>",
                 preserveWhitespaces: true})] *)
Definition selected : Expr :=
  ObjectLiteral [("selector", StringLiteral "bar");
                 ("template", StringLiteral "<p></p>");
                 ("preserveWhitespaces", TrueKeyword)].

(** [@Component({template: "<div></div>", preserveWhitespaces: "yes"})] *)
Definition bad_whitespace : Expr :=
  ObjectLiteral [("template", StringLiteral "<div></div>");
                 ("preserveWhitespaces", StringLiteral "yes")].

(** [@Component({template: "<p><b>"})] *)
Definition unclosed : Expr :=
  ObjectLiteral [("template", StringLiteral "<p><b>")].

(** [@Component({selector: "foo", jit: true, preserveWhitespaces: "yes"})] *)
Definition opted_out : Expr :=
  ObjectLiteral [("selector", StringLiteral "foo");
                 ("jit", TrueKeyword);
                 ("preserveWhitespaces", StringLiteral "yes")].

(** [@Component({selector: "foo"})] and
    [@Component({template: SOME_CONSTANT})] *)
Definition no_template : Expr :=
  ObjectLiteral [("selector", StringLiteral "foo")].
Definition template_by_name : Expr :=
  ObjectLiteral [("template", Identifier "SOME_CONSTANT")].

(** A world with nothing registered, and one where [Bar] belongs to a
    module whose scope has a directive and no pipe. *)
Definition empty_world : World :=
  {| scopeRegistry := {| selectors := ∅; scopes := ∅ |};
     maps := module_maps |}.

Definition bar_scope : gmap string Value := CompilationScope 2%positive 3%positive.

Definition module_world : World :=
  {| scopeRegistry :=
       {| selectors := {[ 2 := VString "bar" ]};
          scopes := {[ 2 := bar_scope ]} |};
     maps := <[3%positive := ∅]>
               (<[2%positive := {[ "bar" := VExpression "Bar" ]}]> module_maps) |}.

(** [@Component({selector: "bar", template: "<div>"})] *)
Definition selected_unclosed : Expr :=
  ObjectLiteral [("selector", StringLiteral "bar");
                 ("template", StringLiteral "<div>")].

(** The analysis of [Bar] under [selected]. *)
Definition bar_metadata : gmap string Value :=
  component_metadata
    (<["selector" := VString "bar"]> (<["name" := VString "Bar"]> ∅))
    (parse "<p></p>" "bar.ts#Bar/template.html" true).


(** Decorators that [detect] passes over: [@Injectable()] of the core, and
    a [@Component] of another library. *)
Definition injectable : Decorator :=
  {| Decorator_name := "Injectable";
     Decorator_import := Some "@angular/core";
     Decorator_args := Some [] |}.

Definition foreign_component : Decorator :=
  {| Decorator_name := "Component";
     Decorator_import := Some "some-ui-library";
     Decorator_args := Some [plain] |}.

(** A world where the scope found for [Foo] carries a [template] property
    besides its [pipes]. *)
Definition odd_scope : gmap string Value :=
  <["template" := VNull]> (<["pipes" := VMap 3%positive]> ∅).

Definition odd_world : World :=
  {| scopeRegistry :=
       {| selectors := ∅; scopes := {[ 1 := odd_scope ]} |};
     maps := maps module_world |}.



(** The same imported functions, with a parser that reports an empty list of
    diagnostics for the empty template. *)
Definition parse_quiet (template url : string) (preserveWhitespaces : bool) :
    Template :=
  if String.eqb template ""
  then {| template_errors := Some [];
          template_nodes := [];
          template_preserveWhitespaces := preserveWhitespaces |}
  else parse template url preserveWhitespaces.

Definition quiet_collaborators : Collaborators := {|
  ts_isObjectLiteralExpression := ts_isObjectLiteralExpression;
  name_text := name_text;
  getSourceFile_fileName := getSourceFile_fileName;
  isAngularCore := isAngularCore;
  extractDirectiveMetadata := extractDirectiveMetadata;
  reflectObjectLiteral := reflectObjectLiteral;
  staticallyResolve := staticallyResolve;
  parseTemplate := parse_quiet;
  ParsedTemplate_errors := template_errors;
  ParseError_toString e := e;
  ConstantPool_new := [];
  ConstantPool_statements pool := pool;
  makeBindingParser := tt;
  compileComponentFromMetadata := generate;
|}.

(** [@Component({selector: "bar", template: ""})] *)
Definition selected_blank : Expr :=
  ObjectLiteral [("selector", StringLiteral "bar");
                 ("template", StringLiteral "")].

End Demo.

(** * Properties *)

(** ** Strings *)

Lemma prefix_append (p s : string) : String.prefix p (p +:+ s) = true.
Proof.
  induction p as [|c p IH]; simpl.
  - now destruct s.
  - destruct (Ascii.ascii_dec c c) as [_|ne]; [exact IH | now destruct ne].
Qed.

Lemma prefix_append_r (p s post : string) :
  String.prefix p s = true -> String.prefix p (s +:+ post) = true.
Proof.
  revert s. induction p as [|c p IH]; intros s Hp; simpl in *.
  - now destruct (s +:+ post).
  - destruct s as [|d s]; simpl in *; [discriminate|].
    destruct (Ascii.ascii_dec c d); [now apply IH | discriminate].
Qed.

Lemma includes_prefix (sub s : string) :
  String.prefix sub s = true -> includes sub s = true.
Proof. intros Hp. destruct s; simpl in *; rewrite Hp; reflexivity. Qed.

Lemma includes_append_l (sub pre s : string) :
  includes sub s = true -> includes sub (pre +:+ s) = true.
Proof.
  intros Hs. induction pre as [|c pre IH]; simpl; [exact Hs|].
  rewrite IH. apply orb_true_r.
Qed.

Lemma includes_append_r (sub s post : string) :
  includes sub s = true -> includes sub (s +:+ post) = true.
Proof.
  induction s as [|c s IH]; intros Hs.
  - simpl in Hs. rewrite orb_false_r in Hs.
    apply includes_prefix. now apply (prefix_append_r sub EmptyString post).
  - simpl in Hs. apply orb_true_iff in Hs as [Hp|Hr].
    + apply includes_prefix. now apply prefix_append_r.
    + change (String c s +:+ post) with (String c (s +:+ post)).
      simpl. rewrite (IH Hr). apply orb_true_r.
Qed.

Lemma includes_refl (s : string) : includes s s = true.
Proof.
  apply includes_prefix. induction s as [|c s IH]; simpl; [reflexivity|].
  destruct (Ascii.ascii_dec c c) as [_|ne]; [exact IH | now destruct ne].
Qed.

(** Every string of a joined list occurs in the result of the join. *)
Lemma includes_concat (separator x : string) (l : list string) :
  In x l -> includes x (String.concat separator l) = true.
Proof.
  induction l as [|a l IH]; intros Hin; [destruct Hin|].
  destruct Hin as [->|Hin].
  - destruct l as [|b l]; simpl.
    + apply includes_refl.
    + apply includes_append_r, includes_refl.
  - destruct l as [|b l]; [destruct Hin|].
    change (String.concat separator (a :: b :: l))
      with (a +:+ separator +:+ String.concat separator (b :: l)).
    apply includes_append_l, includes_append_l, IH, Hin.
Qed.

(** ** Values and decorators *)

Section ValueFacts.
Context `{HT : HostTypes} `{!Collaborators}.

(** [typeof v === 'string'] holds of the strings only, and
    [typeof v === 'boolean'] of the booleans only: the two tests of
    [analyze] are case distinctions on the value. *)
Lemma typeof_string (v : Value) :
  typeof v = "string" <-> exists s, v = VString s.
Proof.
  split; [|intros [s ->]; reflexivity].
  destruct v; simpl; try discriminate. eauto.
Qed.

Lemma typeof_boolean (v : Value) :
  typeof v = "boolean" <-> exists b, v = VBoolean b.
Proof.
  split; [|intros [b ->]; reflexivity].
  destruct v; simpl; try discriminate. eauto.
Qed.

(** The arity test of [analyze], [args === null || args.length !== 1],
    fails exactly when the arguments are a one-element array, and then
    [args[0]] is that element. *)
Lemma one_argument (decorator : Decorator) (meta : ts_Expression) :
  Decorator_args decorator = Some [meta]
  <-> exists args,
        Decorator_args decorator = Some args
        /\ length args = 1 /\ nth_error args 0 = Some meta.
Proof.
  split.
  - intros Hargs. exists [meta]. repeat split. exact Hargs.
  - intros (args & Hargs & Hlen & Hnth). rewrite Hargs.
    destruct args as [|a [|b args]]; try discriminate.
    simpl in Hnth. congruence.
Qed.

(** [detect] finds a decorator of the list that is called [Component] and
    comes from the Angular core, and none before it is such. *)
Lemma detect_Some (decorators : list Decorator) (d : Decorator) :
  detect decorators = Some d ->
  In d decorators
  /\ Decorator_name d = "Component" /\ isAngularCore d = true.
Proof.
  unfold detect. intros Hfind. apply find_some in Hfind as [Hin Hd].
  apply andb_true_iff in Hd as [Hname Hcore].
  apply String.eqb_eq in Hname. auto.
Qed.

Lemma detect_None (decorators : list Decorator) (d : Decorator) :
  detect decorators = None ->
  In d decorators ->
  Decorator_name d <> "Component" \/ isAngularCore d = false.
Proof.
  unfold detect. intros Hfind Hin.
  pose proof (find_none _ _ Hfind d Hin) as Hd. simpl in Hd.
  apply andb_false_iff in Hd as [Hname|Hcore]; [left|right; exact Hcore].
  now apply String.eqb_neq.
Qed.

End ValueFacts.

(** ** The ways through [analyze] *)

Section Paths.
Context `{HT : HostTypes} `{!Collaborators} `{!SelectorScopeRegistry}.
Implicit Types (this : ComponentDecoratorHandler)
  (node : ts_ClassDeclaration) (decorator : Decorator) (w : World).

Lemma resolve_preserveWhitespaces_run this component w :
  resolve_preserveWhitespaces this component w
  = (match preserveWhitespaces_of this component with
     | Some b => Returned b
     | None =>
         Thrown
           (Error "preserveWhitespaces must resolve to a boolean if present")
     end, w, whitespace_calls component).
Proof.
  unfold resolve_preserveWhitespaces, preserveWhitespaces_of,
    whitespace_calls, bind, do_staticallyResolve, call, ret, throw.
  destruct (component !! "preserveWhitespaces") as [e|]; [|reflexivity].
  destruct (staticallyResolve e (checker this)); reflexivity.
Qed.

Lemma preserveWhitespaces_of_None this component :
  preserveWhitespaces_of this component = None ->
  exists e, component !! "preserveWhitespaces" = Some e
            /\ typeof (staticallyResolve e (checker this)) <> "boolean"
            /\ whitespace_calls component = [Call_staticallyResolve e].
Proof.
  unfold preserveWhitespaces_of, whitespace_calls.
  destruct (component !! "preserveWhitespaces") as [e|]; [|discriminate].
  intros Hv. exists e. repeat split.
  destruct (staticallyResolve e (checker this)); simpl; congruence.
Qed.

Lemma analyze_run_of_result this node decorator w o w' t :
  analyze this node decorator w = (o, w', t) ->
  analyze_run this node decorator w o w' t.
Proof.
  unfold analyze.
  destruct (Decorator_args decorator) as [[|meta [|? ?]]|] eqn:Hargs;
    try (intros [= <- <- <-]; apply run_wrong_arity; congruence).
  destruct (ts_isObjectLiteralExpression meta) eqn:Hlit; simpl;
    [|intros [= <- <- <-]; eapply run_not_literal; eauto].
  unfold bind at 1, do_extractDirectiveMetadata, call.
  destruct (extractDirectiveMetadata _ _ _ _) as [dm|] eqn:Hdm; simpl;
    [|intros [= <- <- <-]; eapply run_skipped; eauto].
  assert (Hpass : passes_argument_checks this node decorator meta dm)
    by (repeat split; assumption).
  unfold bind at 1, do_reflectObjectLiteral, call.
  destruct (reflectObjectLiteral meta !! "template") as [templateExpr|]
    eqn:Htemplate; simpl;
    [|intros [= <- <- <-]; eapply run_no_template; eauto].
  unfold bind at 1, do_staticallyResolve, call.
  destruct (staticallyResolve templateExpr (checker this))
    as [| | | |templateStr| | | | |] eqn:Hstr; simpl;
    try (intros [= <- <- <-]; eapply run_template_not_string; eauto;
         rewrite Hstr; simpl; congruence).
  unfold bind at 1. rewrite resolve_preserveWhitespaces_run.
  destruct (preserveWhitespaces_of this (reflectObjectLiteral meta))
    as [pw|] eqn:Hpw; simpl.
  2:{ destruct (preserveWhitespaces_of_None _ _ Hpw) as (e & He & Hty & ->).
      intros [= <- <- <-]. eapply run_whitespace_not_boolean; eauto. }
  unfold bind at 1, do_parseTemplate, call.
  destruct (ParsedTemplate_errors _) as [errors|] eqn:Herrors; simpl.
  { intros [= <- <- <-]. eapply run_parse_errors; eauto. }
  destruct (prop "selector" dm) eqn:Hsel; simpl; intros [= <- <- <-];
    try (rewrite <- Hsel;
         eapply run_analyzed_registered; eauto; rewrite Hsel; congruence).
  eapply run_analyzed; eauto.
Qed.

(** [analyze] always ends, on exactly the exit that its checks select. *)
Lemma analyze_runs this node decorator w :
  analyze_run this node decorator w
    (outcome (analyze this node decorator w))
    (world_after (analyze this node decorator w))
    (calls (analyze this node decorator w)).
Proof.
  apply analyze_run_of_result.
  now destruct (analyze this node decorator w) as [[o w'] t].
Qed.

End Paths.

(** ** What [analyze] does on given inputs *)

Ltac unfold_effects :=
  unfold bind, call, ret, throw, do_extractDirectiveMetadata,
    do_reflectObjectLiteral, do_staticallyResolve, do_parseTemplate,
    do_registerSelector, do_lookupCompilationScope,
    do_compileComponentFromMetadata.

(** Follows the method along the branches that the hypotheses select. *)
Ltac follow :=
  repeat first
    [ progress simpl
    | match goal with
      | H : ?x = _ |- context [?x] => rewrite H
      end
    | progress unfold_effects ].

Ltac use_checks :=
  repeat match goal with
  | H : passes_argument_checks _ _ _ _ _ |- _ =>
      destruct H as (? & ? & ?)
  end.

Section Runs.
Context `{HT : HostTypes} `{!Collaborators} `{!SelectorScopeRegistry}.
Implicit Types (this : ComponentDecoratorHandler)
  (node : ts_ClassDeclaration) (decorator : Decorator) (w : World).

Lemma analyze_wrong_arity this node decorator w :
  (forall meta, Decorator_args decorator <> Some [meta]) ->
  analyze this node decorator w
  = (Thrown (Error "Incorrect number of arguments to @Component decorator"),
     w, []).
Proof.
  intros Hn. unfold analyze.
  destruct (Decorator_args decorator) as [[|meta [|? ?]]|]; try reflexivity.
  now destruct (Hn meta).
Qed.

Lemma analyze_not_literal this node decorator w meta :
  Decorator_args decorator = Some [meta] ->
  ts_isObjectLiteralExpression meta = false ->
  analyze this node decorator w
  = (Thrown (Error "Decorator argument must be literal."), w, []).
Proof. intros Hargs Hlit. unfold analyze. now follow. Qed.

Lemma analyze_skipped this node decorator w meta :
  Decorator_args decorator = Some [meta] ->
  ts_isObjectLiteralExpression meta = true ->
  extractDirectiveMetadata node decorator (checker this) (reflector this)
  = None ->
  analyze this node decorator w
  = (Returned {| analysis := None |}, w,
     [Call_extractDirectiveMetadata node decorator]).
Proof. intros Hargs Hlit Hdm. unfold analyze. now follow. Qed.

Lemma analyze_no_template this node decorator w meta dm :
  passes_argument_checks this node decorator meta dm ->
  reflectObjectLiteral meta !! "template" = None ->
  analyze this node decorator w
  = (Thrown (Error "For now, components must directly have a template."), w,
     [Call_extractDirectiveMetadata node decorator;
      Call_reflectObjectLiteral meta]).
Proof. intros Hpass Ht. use_checks. unfold analyze. now follow. Qed.

Lemma analyze_template_not_string this node decorator w meta dm templateExpr :
  passes_argument_checks this node decorator meta dm ->
  reflectObjectLiteral meta !! "template" = Some templateExpr ->
  typeof (staticallyResolve templateExpr (checker this)) <> "string" ->
  analyze this node decorator w
  = (Thrown (Error ("Template must statically resolve to a string: "
                    +:+ name_text node)), w,
     [Call_extractDirectiveMetadata node decorator;
      Call_reflectObjectLiteral meta;
      Call_staticallyResolve templateExpr]).
Proof.
  intros Hpass Ht Hty. use_checks. unfold analyze. follow.
  destruct (staticallyResolve templateExpr (checker this));
    try reflexivity.
  now destruct Hty.
Qed.

(** From the whitespace step on: the option is resolved, the template is
    parsed, the diagnostics decide, and a selector is registered last. *)
Lemma analyze_template_string this node decorator w meta dm templateExpr
    templateStr :
  passes_argument_checks this node decorator meta dm ->
  reflectObjectLiteral meta !! "template" = Some templateExpr ->
  staticallyResolve templateExpr (checker this) = VString templateStr ->
  let component := reflectObjectLiteral meta in
  let before :=
    [Call_extractDirectiveMetadata node decorator;
     Call_reflectObjectLiteral meta;
     Call_staticallyResolve templateExpr] in
  analyze this node decorator w
  = match preserveWhitespaces_of this component with
    | None =>
        (Thrown
           (Error "preserveWhitespaces must resolve to a boolean if present"),
         w, (before ++ whitespace_calls component)%list)
    | Some preserveWhitespaces =>
        let template :=
          parseTemplate templateStr (template_url node) preserveWhitespaces in
        let parsed :=
          Call_parseTemplate templateStr (template_url node)
            preserveWhitespaces in
        match ParsedTemplate_errors template with
        | Some errors =>
            (Thrown (Error ("Errors parsing template: " +:+
                            String.concat ", "
                              (map ParseError_toString errors))),
             w, (before ++ whitespace_calls component ++ [parsed])%list)
        | None =>
            (Returned
               {| analysis := Some (component_metadata dm template) |},
             match prop "selector" dm with
             | VNull => w
             | selector =>
                 {| scopeRegistry :=
                      registerSelector node selector (scopeRegistry w);
                    maps := maps w |}
             end,
             (before ++ whitespace_calls component
              ++ parsed
                 :: match prop "selector" dm with
                    | VNull => []
                    | selector => [Call_registerSelector node selector]
                    end)%list)
        end
    end.
Proof.
  intros Hpass Ht Hstr component before. subst component before.
  use_checks. unfold analyze. follow.
  rewrite resolve_preserveWhitespaces_run.
  destruct (preserveWhitespaces_of this (reflectObjectLiteral meta)) as [pw|];
    simpl; [|reflexivity].
  destruct (ParsedTemplate_errors _); simpl; [reflexivity|].
  destruct (prop "selector" dm); reflexivity.
Qed.

(** The evaluator calls for the whitespace option are not parser calls and
    not registrations. *)
Lemma whitespace_calls_resolve (component : gmap string ts_Expression) c :
  In c (whitespace_calls component) -> exists e, c = Call_staticallyResolve e.
Proof.
  unfold whitespace_calls.
  destruct (component !! "preserveWhitespaces") as [e|]; simpl; [|tauto].
  intros [<-|[]]. now exists e.
Qed.

(** A successful analysis went through every check. *)
Lemma analyze_success this node decorator w metadata :
  outcome (analyze this node decorator w)
  = Returned {| analysis := Some metadata |} ->
  exists meta dm templateExpr templateStr preserveWhitespaces,
    passes_argument_checks this node decorator meta dm
    /\ reflectObjectLiteral meta !! "template" = Some templateExpr
    /\ staticallyResolve templateExpr (checker this) = VString templateStr
    /\ preserveWhitespaces_of this (reflectObjectLiteral meta)
       = Some preserveWhitespaces
    /\ ParsedTemplate_errors
         (parseTemplate templateStr (template_url node) preserveWhitespaces)
       = None
    /\ metadata
       = component_metadata dm
           (parseTemplate templateStr (template_url node)
              preserveWhitespaces).
Proof.
  intros Hout. pose proof (analyze_runs this node decorator w) as Hrun.
  rewrite Hout in Hrun.
  inversion Hrun; subst; eauto 12.
Qed.

(** A parser call in the trace pins down what was parsed and how. *)
Lemma parse_call_inversion this node decorator w template url pw :
  In (Call_parseTemplate template url pw)
     (calls (analyze this node decorator w)) ->
  exists meta dm templateExpr,
    passes_argument_checks this node decorator meta dm
    /\ reflectObjectLiteral meta !! "template" = Some templateExpr
    /\ staticallyResolve templateExpr (checker this) = VString template
    /\ url = template_url node
    /\ preserveWhitespaces_of this (reflectObjectLiteral meta) = Some pw.
Proof.
  intros Hin. pose proof (analyze_runs this node decorator w) as Hrun.
  destruct Hrun; simpl in Hin;
    repeat match goal with
    | H : _ \/ _ |- _ => destruct H
    | H : In _ (_ ++ _) |- _ => apply in_app_or in H
    | H : In _ (whitespace_calls _) |- _ =>
        apply whitespace_calls_resolve in H as [? ?]
    | H : In _ (_ :: _) |- _ => simpl in H
    | H : In _ [] |- _ => destruct H
    | H : False |- _ => destruct H
    end;
    try discriminate;
    match goal with
    | H : Call_parseTemplate _ _ _ = Call_parseTemplate _ _ _ |- _ =>
        injection H as <- <- <-
    end; eauto 10.
Qed.

Lemma preserveWhitespaces_absent this (component : gmap string ts_Expression) :
  component !! "preserveWhitespaces" = None ->
  preserveWhitespaces_of this component = Some false.
Proof. intros Hc. unfold preserveWhitespaces_of. now rewrite Hc. Qed.

Lemma preserveWhitespaces_boolean this
    (component : gmap string ts_Expression) e b :
  component !! "preserveWhitespaces" = Some e ->
  staticallyResolve e (checker this) = VBoolean b ->
  preserveWhitespaces_of this component = Some b.
Proof.
  intros Hc Hv. unfold preserveWhitespaces_of. now rewrite Hc, Hv.
Qed.

Lemma preserveWhitespaces_not_boolean this
    (component : gmap string ts_Expression) e :
  component !! "preserveWhitespaces" = Some e ->
  typeof (staticallyResolve e (checker this)) <> "boolean" ->
  preserveWhitespaces_of this component = None.
Proof.
  intros Hc Hty. unfold preserveWhitespaces_of. rewrite Hc.
  destruct (staticallyResolve e (checker this)); try reflexivity.
  now destruct Hty.
Qed.

(** A parser call is made with the whitespace option of the one argument. *)
Lemma parse_call_option this node decorator w meta template url pw :
  Decorator_args decorator = Some [meta] ->
  In (Call_parseTemplate template url pw)
     (calls (analyze this node decorator w)) ->
  preserveWhitespaces_of this (reflectObjectLiteral meta) = Some pw.
Proof.
  intros Hargs Hin.
  destruct (parse_call_inversion _ _ _ _ _ _ _ Hin)
    as (meta' & dm & te & (Hargs' & _ & _) & _ & _ & _ & Hpw).
  rewrite Hargs in Hargs'. now injection Hargs' as ->.
Qed.


Lemma analyze_keeps_maps this node decorator w :
  maps (world_after (analyze this node decorator w)) = maps w.
Proof.
  pose proof (analyze_run_of_result this node decorator w) as Hrun.
  destruct (analyze this node decorator w) as [[o w'] t].
  specialize (Hrun _ _ _ eq_refl). unfold world_after. simpl.
  destruct Hrun; reflexivity.
Qed.

End Runs.

(** ** The handler against its specification *)

Section Claims.
Context `{HT : HostTypes} `{!Collaborators} `{!SelectorScopeRegistry}.
Implicit Types (this : ComponentDecoratorHandler)
  (node : ts_ClassDeclaration) (decorator : Decorator) (w : World).

Lemma template_type_error_is_ConfigError (name : string) :
  is_ConfigError
    (Error ("Template must statically resolve to a string: " +:+ name))
  = true.
Proof.
  unfold is_ConfigError, JsError_message.
  rewrite prefix_append. now rewrite !orb_true_r.
Qed.

Lemma parse_error_is_TemplateParseError (diagnostics : string) :
  is_TemplateParseError (Error ("Errors parsing template: " +:+ diagnostics))
  = true.
Proof. apply prefix_append. Qed.

(** C7. A decorator whose argument list is missing or does not have exactly
    one element makes [analyze] throw a ConfigError; a single argument that
    is not an object literal makes it throw the ConfigError "Decorator
    argument must be literal.". In both cases the world is untouched and no
    imported function has been called: nothing of the configuration has been
    reflected or evaluated. *)
Theorem analyze_rejects_bad_arguments this node decorator w :
  ((forall args, Decorator_args decorator = Some args -> length args <> 1) ->
   exists e,
     analyze this node decorator w = (Thrown e, w, [])
     /\ is_ConfigError e = true)
  /\ (forall meta,
        Decorator_args decorator = Some [meta] ->
        ts_isObjectLiteralExpression meta = false ->
        exists e,
          analyze this node decorator w = (Thrown e, w, [])
          /\ is_ConfigError e = true
          /\ includes "argument must be literal" (JsError_message e) = true).
Proof.
  split.
  - intros Hlen. eexists. split.
    + apply analyze_wrong_arity. intros meta Hargs.
      now apply (Hlen _ Hargs).
    + reflexivity.
  - intros meta Hargs Hlit. eexists. split; [|split].
    + now apply analyze_not_literal with (meta := meta).
    + reflexivity.
    + reflexivity.
Qed.

(** C9. When the directive extractor returns nothing for the declaration,
    [analyze] returns the empty output [{}] and throws nothing; the extractor
    call is the only call made, so neither the template nor the whitespace
    option is looked at, whatever they are, and the world is untouched. *)
Theorem analyze_skip_returns_empty this node decorator w meta :
  Decorator_args decorator = Some [meta] ->
  ts_isObjectLiteralExpression meta = true ->
  extractDirectiveMetadata node decorator (checker this) (reflector this)
  = None ->
  analyze this node decorator w
  = (Returned {| analysis := None |}, w,
     [Call_extractDirectiveMetadata node decorator]).
Proof. apply analyze_skipped. Qed.

(** C10. The metadata of every successful analysis has [viewQueries] set to
    the empty array, whatever the directive extractor returned. *)
Theorem analyze_viewQueries_empty this node decorator w metadata :
  outcome (analyze this node decorator w)
  = Returned {| analysis := Some metadata |} ->
  metadata !! "viewQueries" = Some (VArray []).
Proof.
  intros Hout.
  destruct (analyze_success _ _ _ _ _ Hout)
    as (meta & dm & te & ts & pw & _ & _ & _ & _ & _ & ->).
  unfold component_metadata.
  rewrite !lookup_insert_ne by discriminate.
  apply lookup_insert_eq.
Qed.

(** C3. When [analyze] throws, the error is a ConfigError or a
    TemplateParseError, the world (and with it the registry) is exactly as
    before, and [registerSelector] has not been called. A call of
    [registerSelector] is for the analysed declaration, comes last, right
    after a parser call that reported no diagnostics, and the analysis
    succeeds. *)
Theorem analyze_failure_registers_nothing this node decorator w :
  (forall e,
     outcome (analyze this node decorator w) = Thrown e ->
     is_ConfigError e || is_TemplateParseError e = true
     /\ world_after (analyze this node decorator w) = w
     /\ forall n selector,
          ~ In (Call_registerSelector n selector)
               (calls (analyze this node decorator w)))
  /\ (forall n selector,
        In (Call_registerSelector n selector)
           (calls (analyze this node decorator w)) ->
        n = node
        /\ (exists metadata,
              outcome (analyze this node decorator w)
              = Returned {| analysis := Some metadata |})
        /\ exists before template url pw,
             calls (analyze this node decorator w)
             = (before ++ [Call_parseTemplate template url pw;
                           Call_registerSelector node selector])%list
             /\ ParsedTemplate_errors (parseTemplate template url pw) = None).
Proof.
  pose proof (analyze_run_of_result this node decorator w) as Hrun.
  destruct (analyze this node decorator w) as [[o w'] t].
  specialize (Hrun _ _ _ eq_refl). unfold outcome, world_after, calls.
  simpl. split.
  - intros e ->.
    inversion Hrun; subst;
      (split; [|split; [reflexivity|]]);
      try reflexivity;
      try (rewrite template_type_error_is_ConfigError; reflexivity);
      try (rewrite parse_error_is_TemplateParseError; apply orb_true_r);
      intros n selector Hin; simpl in Hin;
      repeat match goal with
      | H : _ \/ _ |- _ => destruct H
      | H : In _ (_ ++ _) |- _ => apply in_app_or in H
      | H : In _ (whitespace_calls _) |- _ =>
          apply whitespace_calls_resolve in H as [? ?]
      | H : In _ (_ :: _) |- _ => simpl in H
      | H : False |- _ => destruct H
      end; discriminate.
  - intros n selector Hin.
    destruct Hrun; simpl in Hin;
      repeat match goal with
      | H : _ \/ _ |- _ => destruct H
      | H : In _ (_ ++ _) |- _ => apply in_app_or in H
      | H : In _ (whitespace_calls _) |- _ =>
          apply whitespace_calls_resolve in H as [? ?]
      | H : In _ (_ :: _) |- _ => simpl in H
      | H : False |- _ => destruct H
      end; try discriminate.
    match goal with
    | H : Call_registerSelector _ _ = Call_registerSelector _ _ |- _ =>
        injection H as <- <-
    end.
    split; [reflexivity|]. split; [eauto|].
    eexists (_ :: _ :: _ :: whitespace_calls _), _, _, _.
    split; [|eassumption].
    reflexivity.
Qed.

(** C5. When the parser was called from [analyze] and reports diagnostics,
    [analyze] throws one TemplateParseError; its message is the fixed prefix
    followed by the diagnostics joined with [", "], every diagnostic occurs
    in it, and nothing is returned or registered. *)
Theorem parse_diagnostics_are_all_reported this node decorator w
    template url pw errors :
  In (Call_parseTemplate template url pw)
     (calls (analyze this node decorator w)) ->
  ParsedTemplate_errors (parseTemplate template url pw) = Some errors ->
  let message :=
    "Errors parsing template: " +:+
    String.concat ", " (map ParseError_toString errors) in
  outcome (analyze this node decorator w) = Thrown (Error message)
  /\ is_TemplateParseError (Error message) = true
  /\ (forall e, In e errors ->
        includes (ParseError_toString e) message = true)
  /\ world_after (analyze this node decorator w) = w.
Proof.
  intros Hin Herrors message.
  destruct (parse_call_inversion _ _ _ _ _ _ _ Hin)
    as (meta & dm & te & Hpass & Ht & Hstr & -> & Hpw).
  rewrite (analyze_template_string _ _ _ w _ _ _ _ Hpass Ht Hstr).
  cbv zeta. rewrite Hpw, Herrors. unfold outcome, world_after.
  cbn [fst snd]. subst message.
  split; [reflexivity|]. split; [apply parse_error_is_TemplateParseError|].
  split; [|reflexivity].
  intros e He. apply includes_append_l, includes_concat.
  apply in_map, He.
Qed.

Lemma analyze_parsed_with this node decorator w meta dm templateExpr
    templateStr b :
  passes_argument_checks this node decorator meta dm ->
  reflectObjectLiteral meta !! "template" = Some templateExpr ->
  staticallyResolve templateExpr (checker this) = VString templateStr ->
  preserveWhitespaces_of this (reflectObjectLiteral meta) = Some b ->
  parsed_with this node decorator w dm templateStr b.
Proof.
  intros Hpass Ht Hstr Hpw. unfold parsed_with.
  rewrite (analyze_template_string _ _ _ w _ _ _ _ Hpass Ht Hstr).
  cbv zeta. rewrite Hpw. unfold calls, outcome.
  destruct (ParsedTemplate_errors _); cbn [fst snd];
    (split; [|reflexivity]);
    rewrite !in_app_iff; right; right; left; reflexivity.
Qed.

(** C8. For a declaration that passes the argument checks and is not
    skipped: without a [preserveWhitespaces] field every parser call
    receives [false], and a template that resolves to a string is parsed
    with [false]; with a field that resolves to a boolean every parser call
    receives that boolean, and the template is parsed with it; with a field
    that resolves to anything else [analyze] throws a ConfigError and the
    parser is not called. Parsed with an option means that the parser is
    called on the string with that option and that the analysis ends on
    what this very parse gives: its diagnostics thrown, or its template in
    the returned metadata. *)
Theorem whitespace_option_passed_to_parser this node decorator w meta dm :
  passes_argument_checks this node decorator meta dm ->
  let component := reflectObjectLiteral meta in
  (component !! "preserveWhitespaces" = None ->
   parser_receives this node decorator w false
   /\ forall templateExpr templateStr,
        component !! "template" = Some templateExpr ->
        staticallyResolve templateExpr (checker this)
        = VString templateStr ->
        parsed_with this node decorator w dm templateStr false)
  /\ (forall e b,
        component !! "preserveWhitespaces" = Some e ->
        staticallyResolve e (checker this) = VBoolean b ->
        parser_receives this node decorator w b
        /\ forall templateExpr templateStr,
             component !! "template" = Some templateExpr ->
             staticallyResolve templateExpr (checker this)
             = VString templateStr ->
             parsed_with this node decorator w dm templateStr b)
  /\ (forall e,
        component !! "preserveWhitespaces" = Some e ->
        typeof (staticallyResolve e (checker this)) <> "boolean" ->
        (exists err,
           outcome (analyze this node decorator w) = Thrown err
           /\ is_ConfigError err = true)
        /\ parser_not_called this node decorator w)
  /\ (forall templateExpr templateStr b,
        component !! "template" = Some templateExpr ->
        staticallyResolve templateExpr (checker this) = VString templateStr ->
        preserveWhitespaces_of this component = Some b ->
        In (Call_parseTemplate templateStr (template_url node) b)
           (calls (analyze this node decorator w))).
Proof.
  intros Hpass component. subst component.
  assert (Hargs : Decorator_args decorator = Some [meta]) by apply Hpass.
  split; [|split; [|split]].
  - intros Hc. split.
    + intros template url pw Hin.
      pose proof (parse_call_option _ _ _ _ _ _ _ _ Hargs Hin) as Hpw.
      rewrite (preserveWhitespaces_absent _ _ Hc) in Hpw. congruence.
    + intros te ts Ht Hstr.
      eapply analyze_parsed_with; eauto using preserveWhitespaces_absent.
  - intros e b Hc Hv. split.
    + intros template url pw Hin.
      pose proof (parse_call_option _ _ _ _ _ _ _ _ Hargs Hin) as Hpw.
      rewrite (preserveWhitespaces_boolean _ _ _ _ Hc Hv) in Hpw. congruence.
    + intros te ts Ht Hstr.
      eapply analyze_parsed_with; eauto using preserveWhitespaces_boolean.
  - intros e Hc Hty.
    pose proof (preserveWhitespaces_not_boolean _ _ _ Hc Hty) as Hnone.
    split.
    + destruct (reflectObjectLiteral meta !! "template") as [te|] eqn:Ht.
      * destruct (staticallyResolve te (checker this)) eqn:Hstr;
          try (rewrite (analyze_template_not_string _ _ _ w _ _ _ Hpass Ht)
                 by (rewrite Hstr; simpl; congruence);
               eexists; split;
               [reflexivity | apply template_type_error_is_ConfigError]).
        rewrite (analyze_template_string _ _ _ w _ _ _ _ Hpass Ht Hstr).
        cbv zeta. rewrite Hnone. eexists. split; reflexivity.
      * rewrite (analyze_no_template _ _ _ w _ _ Hpass Ht).
        eexists. split; reflexivity.
    + intros template url pw Hin.
      pose proof (parse_call_option _ _ _ _ _ _ _ _ Hargs Hin) as Hpw.
      congruence.
  - intros te ts b Ht Hstr Hpw.
    rewrite (analyze_template_string _ _ _ w _ _ _ _ Hpass Ht Hstr).
    cbv zeta. rewrite Hpw. unfold calls.
    destruct (ParsedTemplate_errors _); cbn [snd];
      rewrite !in_app_iff; right; right; left; reflexivity.
Qed.

(** C6, as the code has it. For a declaration that passes the argument
    checks and is not skipped: without a [template] field [analyze] throws a
    ConfigError; with a template that does not resolve to a string it throws
    a ConfigError whose message ends with the name of the class; with a
    template that resolves to a string it goes on to the whitespace option
    and, when that is absent or boolean, calls the parser on exactly that
    string, while a whitespace option of another type makes it throw the
    whitespace ConfigError without calling the parser. *)
Theorem template_field_is_validated this node decorator w meta dm :
  passes_argument_checks this node decorator meta dm ->
  let component := reflectObjectLiteral meta in
  (component !! "template" = None ->
   exists e,
     outcome (analyze this node decorator w) = Thrown e
     /\ is_ConfigError e = true)
  /\ (forall templateExpr,
        component !! "template" = Some templateExpr ->
        typeof (staticallyResolve templateExpr (checker this)) <> "string" ->
        exists e,
          outcome (analyze this node decorator w) = Thrown e
          /\ is_ConfigError e = true
          /\ includes (name_text node) (JsError_message e) = true
          /\ parser_not_called this node decorator w)
  /\ (forall templateExpr templateStr,
        component !! "template" = Some templateExpr ->
        staticallyResolve templateExpr (checker this) = VString templateStr ->
        match preserveWhitespaces_of this component with
        | Some preserveWhitespaces =>
            In (Call_parseTemplate templateStr (template_url node)
                  preserveWhitespaces)
               (calls (analyze this node decorator w))
        | None =>
            outcome (analyze this node decorator w)
            = Thrown
                (Error
                   "preserveWhitespaces must resolve to a boolean if present")
            /\ parser_not_called this node decorator w
        end).
Proof.
  intros Hpass component. subst component.
  assert (Hargs : Decorator_args decorator = Some [meta]) by apply Hpass.
  split; [|split].
  - intros Ht. rewrite (analyze_no_template _ _ _ w _ _ Hpass Ht).
    eexists. split; reflexivity.
  - intros te Ht Hty.
    pose proof (analyze_template_not_string _ _ _ w _ _ _ Hpass Ht Hty)
      as Hrun.
    eexists. split; [now rewrite Hrun|].
    split; [apply template_type_error_is_ConfigError|].
    split; [apply includes_append_l, includes_refl|].
    intros template url pw Hin. rewrite Hrun in Hin.
    simpl in Hin. intuition discriminate.
  - intros te ts Ht Hstr.
    pose proof (analyze_template_string _ _ _ w _ _ _ _ Hpass Ht Hstr)
      as Hrun. cbv zeta in Hrun.
    destruct (preserveWhitespaces_of this (reflectObjectLiteral meta))
      as [pw|] eqn:Hpw.
    + rewrite Hrun. unfold calls.
      destruct (ParsedTemplate_errors _); cbn [snd];
        rewrite !in_app_iff; right; right; left; reflexivity.
    + split; [now rewrite Hrun|].
      intros template url pw Hin.
      pose proof (parse_call_option _ _ _ _ _ _ _ _ Hargs Hin). congruence.
Qed.

(** C1. [compile] looks up the scope, calls the code generator once, with a
    fresh constant pool, and returns, without throwing, the result packaged
    from what the generator made of the metadata it was passed. That
    metadata has every property other than [pipes] and [directives] exactly
    as in the analysis. When a scope is found, [pipes] and [directives] are
    those of the scope; when none is found the metadata is the analysis
    itself, so that the placeholders of [analyze] are passed on and read as
    empty while [EMPTY_MAP] has no entries. *)
Theorem compile_overrides_only_sibling_sets this node
    (analysis : gmap string Value) w :
  (forall scope,
     lookupCompilationScope node (scopeRegistry w) = Some scope ->
     is_CompilationScope scope) ->
  exists passed result,
    compile this node analysis w
    = (Returned result, w,
       [Call_lookupCompilationScope node;
        Call_compileComponentFromMetadata passed ConstantPool_new
          makeBindingParser])
    /\ result
       = package (compileComponentFromMetadata (maps w) passed
                    ConstantPool_new makeBindingParser)
    /\ (forall k, k <> "pipes" -> k <> "directives" ->
          passed !! k = analysis !! k)
    /\ match lookupCompilationScope node (scopeRegistry w) with
       | Some scope =>
           passed !! "pipes" = scope !! "pipes"
           /\ passed !! "directives" = scope !! "directives"
           /\ is_Some (scope !! "pipes") /\ is_Some (scope !! "directives")
       | None =>
           passed = analysis
           /\ forall dm template,
                analysis = component_metadata dm template ->
                maps w !! EMPTY_MAP = Some ∅ ->
                sibling_pipes (maps w) passed = ∅
                /\ sibling_directives (maps w) passed = ∅
       end.
Proof.
  intros Hscope. unfold compile. unfold_effects.
  destruct (lookupCompilationScope node (scopeRegistry w)) as [scope|].
  - destruct (Hscope scope eq_refl) as (d & p & ->).
    destruct (compileComponentFromMetadata _ _ _ _) as [res pool] eqn:Hgen.
    eexists _, _. simpl.
    split; [reflexivity|]. split; [now rewrite Hgen|].
    unfold spread, CompilationScope.
    split; [|repeat split].
    + intros k Hp Hd. apply lookup_union_r.
      now rewrite !lookup_insert_ne by congruence.
    + apply lookup_union_Some_l.
      rewrite lookup_insert_ne by discriminate. apply lookup_insert_eq.
    + erewrite lookup_union_Some_l by apply lookup_insert_eq.
      symmetry. apply lookup_insert_eq.
    + rewrite lookup_insert_ne by discriminate.
      rewrite lookup_insert_eq. eauto.
    + rewrite lookup_insert_eq. eauto.
  - destruct (compileComponentFromMetadata _ _ _ _) as [res pool] eqn:Hgen.
    eexists _, _. simpl.
    split; [reflexivity|]. split; [now rewrite Hgen|].
    split; [reflexivity|]. split; [reflexivity|].
    intros dm template -> Hempty.
    unfold sibling_pipes, sibling_directives, prop, component_metadata.
    rewrite lookup_insert_eq.
    rewrite lookup_insert_ne by discriminate. rewrite lookup_insert_eq.
    simpl. now rewrite Hempty.
Qed.

(** C2, as the code has it. The [pipes] and [directives] of every successful
    analysis both are the one [Map] object [EMPTY_MAP] of the module, for
    every declaration alike. [analyze] does not write to the store of maps,
    so both read as empty while [EMPTY_MAP] has no entries. *)
Theorem analyze_placeholders_are_EMPTY_MAP this node decorator w metadata :
  outcome (analyze this node decorator w)
  = Returned {| analysis := Some metadata |} ->
  prop "pipes" metadata = VMap EMPTY_MAP
  /\ prop "directives" metadata = VMap EMPTY_MAP
  /\ maps (world_after (analyze this node decorator w)) = maps w
  /\ (maps w !! EMPTY_MAP = Some ∅ ->
      sibling_pipes (maps w) metadata = ∅
      /\ sibling_directives (maps w) metadata = ∅).
Proof.
  intros Hout.
  destruct (analyze_success _ _ _ _ _ Hout)
    as (meta & dm & te & ts & pw & _ & _ & _ & _ & _ & ->).
  unfold sibling_pipes, sibling_directives, prop, component_metadata.
  rewrite lookup_insert_eq.
  rewrite lookup_insert_ne by discriminate. rewrite lookup_insert_eq.
  simpl. repeat split; try apply analyze_keeps_maps;
    intros; now match goal with H : _ !! _ = _ |- _ => rewrite H end.
Qed.

(** The hazard of the shared placeholder: one write to the [Map] behind a
    placeholder of one analysis shows in the placeholders of every other. *)
Lemma EMPTY_MAP_write_reaches_every_analysis this node1 node2 decorator1
    decorator2 w1 w2 m1 m2 (store : MapStore) ref k v :
  outcome (analyze this node1 decorator1 w1)
  = Returned {| analysis := Some m1 |} ->
  outcome (analyze this node2 decorator2 w2)
  = Returned {| analysis := Some m2 |} ->
  store !! EMPTY_MAP = Some ∅ ->
  prop "pipes" m1 = VMap ref ->
  sibling_directives (Map_set ref k v store) m2 !! k = Some v.
Proof.
  intros H1 H2 Hstore Href.
  apply analyze_success in H1
    as (? & ? & ? & ? & ? & _ & _ & _ & _ & _ & ->).
  apply analyze_success in H2
    as (? & ? & ? & ? & ? & _ & _ & _ & _ & _ & ->).
  revert Href.
  unfold sibling_directives, prop, component_metadata, Map_set.
  rewrite lookup_insert_eq.
  rewrite lookup_insert_ne by discriminate. rewrite lookup_insert_eq.
  simpl. intros [= <-]. unfold MapStore, MapRef in *.
  rewrite lookup_alter_eq, Hstore. simpl.
  apply lookup_insert_eq.
Qed.





End Claims.

(** ** Further properties of the handler *)

(** Splits the membership of a call in an explicit trace into its cases. *)
Ltac trace_cases :=
  simpl in *;
  repeat match goal with
  | H : _ \/ _ |- _ => destruct H
  | H : False |- _ => destruct H
  | H : In _ (_ ++ _) |- _ => apply in_app_or in H
  | H : In _ (_ :: _) |- _ => simpl in H
  | H : In _ [] |- _ => destruct H
  end.

Section Further.
Context `{HT : HostTypes} `{!Collaborators} `{!SelectorScopeRegistry}.
Implicit Types (this : ComponentDecoratorHandler)
  (node : ts_ClassDeclaration) (decorator : Decorator) (w : World).

(** *** [detect] *)

(** X1. [detect] returns a decorator exactly when it is the first one of the
    list that is called [Component] and comes from the Angular core: it
    passes the test, and no decorator before it does. *)
Theorem detect_first_match (decorators : list Decorator) (d : Decorator) :
  detect decorators = Some d
  <-> exists before after,
        decorators = (before ++ d :: after)%list
        /\ is_Component d = true
        /\ forall x, In x before -> is_Component x = false.
Proof.
  unfold detect. fold is_Component. split.
  - induction decorators as [|a l IH]; simpl; [discriminate|].
    change (String.eqb (Decorator_name a) "Component" && isAngularCore a)
      with (is_Component a).
    destruct (is_Component a) eqn:Ha.
    + intros [= <-]. exists [], l. repeat split; [exact Ha|]. intros x [].
    + intros Hfind. destruct (IH Hfind) as (before & after & -> & Hd & Hb).
      exists (a :: before), after. repeat split; [exact Hd|].
      intros x [<-|Hx]; [exact Ha | now apply Hb].
  - intros (before & after & -> & Hd & Hb).
    induction before as [|a before IH]; simpl;
      change (String.eqb (Decorator_name d) "Component" && isAngularCore d)
        with (is_Component d);
      try change (String.eqb (Decorator_name a) "Component"
                  && isAngularCore a) with (is_Component a).
    + now rewrite Hd.
    + rewrite (Hb a) by now left. apply IH. intros x Hx. apply Hb. now right.
Qed.

(** X2. [detect] returns nothing exactly when no decorator of the list is
    called [Component] and comes from the Angular core; in particular on
    the empty list, and on a [Component] of another origin. *)
Theorem detect_nothing_iff (decorators : list Decorator) :
  detect decorators = None
  <-> forall d, In d decorators ->
        Decorator_name d <> "Component" \/ isAngularCore d = false.
Proof.
  unfold detect. split.
  - intros Hfind d Hin.
    pose proof (find_none _ _ Hfind d Hin) as Hd. simpl in Hd.
    apply andb_false_iff in Hd as [Hname|Hcore]; [left|right; exact Hcore].
    now apply String.eqb_neq.
  - intros Hall. induction decorators as [|a l IH]; simpl; [reflexivity|].
    destruct (Hall a (or_introl eq_refl)) as [Hname|Hcore].
    + apply String.eqb_neq in Hname. rewrite Hname. simpl.
      apply IH. intros d Hd. apply Hall. now right.
    + rewrite Hcore, andb_false_r.
      apply IH. intros d Hd. apply Hall. now right.
Qed.

(** *** [analyze] *)

Lemma whitespace_calls_field (component : gmap string ts_Expression) c :
  In c (whitespace_calls component) ->
  exists e, c = Call_staticallyResolve e
            /\ component !! "preserveWhitespaces" = Some e.
Proof.
  unfold whitespace_calls.
  destruct (component !! "preserveWhitespaces") as [e|]; simpl; [|tauto].
  intros [<-|[]]. now exists e.
Qed.

Lemma selector_of_component_metadata (dm : gmap string Value)
    (template : ParsedTemplate) :
  prop "selector" (component_metadata dm template) = prop "selector" dm.
Proof.
  unfold prop, component_metadata.
  now rewrite !lookup_insert_ne by discriminate.
Qed.

(** X3. [analyze] returns metadata exactly when every check passes: one
    argument, an object literal, directive metadata extracted, a template
    that resolves to a string, a whitespace option that is absent or
    boolean, and a parse without diagnostics; the metadata then is the
    directive metadata with the parsed template and the three fixed
    properties. *)
Theorem analyze_succeeds_iff this node decorator w metadata :
  outcome (analyze this node decorator w)
  = Returned {| analysis := Some metadata |}
  <-> exists meta dm templateExpr templateStr preserveWhitespaces,
        passes_argument_checks this node decorator meta dm
        /\ reflectObjectLiteral meta !! "template" = Some templateExpr
        /\ staticallyResolve templateExpr (checker this)
           = VString templateStr
        /\ preserveWhitespaces_of this (reflectObjectLiteral meta)
           = Some preserveWhitespaces
        /\ ParsedTemplate_errors
             (parseTemplate templateStr (template_url node)
                preserveWhitespaces)
           = None
        /\ metadata
           = component_metadata dm
               (parseTemplate templateStr (template_url node)
                  preserveWhitespaces).
Proof.
  split; [apply analyze_success|].
  intros (meta & dm & te & ts & pw & Hpass & Ht & Hstr & Hpw & Herr & ->).
  rewrite (analyze_template_string _ _ _ w _ _ _ _ Hpass Ht Hstr).
  cbv zeta. now rewrite Hpw, Herr.
Qed.

(** X4. After a successful analysis the registry has changed by exactly one
    [registerSelector] for the analysed class, with the [selector] of the
    returned metadata, made as the last call; unless that selector is
    [null], in which case the world is unchanged and [registerSelector] has
    not been called. *)
Theorem analyze_registers_selector_of_metadata this node decorator w
    metadata :
  outcome (analyze this node decorator w)
  = Returned {| analysis := Some metadata |} ->
  (prop "selector" metadata = VNull ->
   world_after (analyze this node decorator w) = w
   /\ count_calls is_register_call (calls (analyze this node decorator w))
      = 0)
  /\ (prop "selector" metadata <> VNull ->
      world_after (analyze this node decorator w)
      = {| scopeRegistry :=
             registerSelector node (prop "selector" metadata)
               (scopeRegistry w);
           maps := maps w |}
      /\ count_calls is_register_call
           (calls (analyze this node decorator w)) = 1
      /\ exists before,
           calls (analyze this node decorator w)
           = (before
              ++ [Call_registerSelector node (prop "selector" metadata)])
             %list).
Proof.
  intros Hout.
  destruct (analyze_success _ _ _ _ _ Hout)
    as (meta & dm & te & ts & pw & Hpass & Ht & Hstr & Hpw & Herr & ->).
  rewrite (analyze_template_string _ _ _ w _ _ _ _ Hpass Ht Hstr).
  cbv zeta. rewrite Hpw, Herr, selector_of_component_metadata.
  unfold world_after, calls, count_calls, whitespace_calls. cbn [fst snd].
  split.
  - intros ->. split; [reflexivity|].
    destruct (reflectObjectLiteral meta !! "preserveWhitespaces");
      reflexivity.
  - intros Hsel.
    destruct (prop "selector" dm) eqn:Hs; try now destruct Hsel.
    all: split; [reflexivity|]; split;
      [destruct (reflectObjectLiteral meta !! "preserveWhitespaces");
         reflexivity|];
      eexists (_ :: _ :: _ :: _ ++ [_])%list; simpl;
      rewrite <- app_assoc; reflexivity.
Qed.

(** X5. The metadata of a successful analysis keeps every property of the
    extracted directive metadata except [template], [viewQueries], [pipes]
    and [directives]; these four are set by [analyze] even when the
    extractor provided them, and [template] holds a parsed template without
    diagnostics. *)
Theorem analyze_keeps_directive_metadata this node decorator w metadata :
  outcome (analyze this node decorator w)
  = Returned {| analysis := Some metadata |} ->
  exists dm template,
    extractDirectiveMetadata node decorator (checker this) (reflector this)
    = Some dm
    /\ (forall k, set_by_analyze k = false -> metadata !! k = dm !! k)
    /\ metadata !! "template" = Some (VTemplate template)
    /\ ParsedTemplate_errors template = None
    /\ exists templateStr preserveWhitespaces,
         template
         = parseTemplate templateStr (template_url node) preserveWhitespaces
         /\ In (Call_parseTemplate templateStr (template_url node)
                  preserveWhitespaces)
               (calls (analyze this node decorator w)).
Proof.
  intros Hout.
  destruct (analyze_success _ _ _ _ _ Hout)
    as (meta & dm & te & ts & pw & Hpass & Ht & Hstr & Hpw & Herr & ->).
  exists dm, (parseTemplate ts (template_url node) pw).
  split; [apply Hpass|]. split; [|split; [|split; [exact Herr|]]].
  - intros k Hk. unfold set_by_analyze in Hk.
    repeat (apply orb_false_iff in Hk as [Hk ?]).
    repeat match goal with
    | H : String.eqb _ _ = false |- _ => apply String.eqb_neq in H
    end.
    unfold component_metadata.
    now rewrite !lookup_insert_ne by congruence.
  - unfold component_metadata.
    rewrite !lookup_insert_ne by discriminate. apply lookup_insert_eq.
  - exists ts, pw. split; [reflexivity|].
    rewrite (analyze_template_string _ _ _ w _ _ _ _ Hpass Ht Hstr).
    cbv zeta. rewrite Hpw, Herr. unfold calls. cbn [snd].
    rewrite !in_app_iff. right. right. left. reflexivity.
Qed.

(** X9. A parser result whose list of diagnostics is defined but empty
    still makes [analyze] throw: the test is [errors !== undefined], and the
    message is the bare prefix. Nothing is returned or registered. *)
Theorem analyze_empty_diagnostics_throw this node decorator w
    template url pw :
  In (Call_parseTemplate template url pw)
     (calls (analyze this node decorator w)) ->
  ParsedTemplate_errors (parseTemplate template url pw) = Some [] ->
  outcome (analyze this node decorator w)
  = Thrown (Error "Errors parsing template: ")
  /\ world_after (analyze this node decorator w) = w
  /\ count_calls is_register_call (calls (analyze this node decorator w))
     = 0.
Proof.
  intros Hin Herr.
  destruct (parse_call_inversion _ _ _ _ _ _ _ Hin)
    as (meta & dm & te & Hpass & Ht & Hstr & -> & Hpw).
  rewrite (analyze_template_string _ _ _ w _ _ _ _ Hpass Ht Hstr).
  cbv zeta. rewrite Hpw, Herr.
  unfold outcome, world_after, calls, count_calls, whitespace_calls.
  cbn [fst snd]. repeat split.
  destruct (reflectObjectLiteral meta !! "preserveWhitespaces"); reflexivity.
Qed.

(** X10. A ConfigError or TemplateParseError thrown by [analyze] is of
    exactly one of the two kinds, and the kind tells whether the parser ran:
    a TemplateParseError is thrown after the one parser call, a ConfigError
    before any. *)
Theorem thrown_error_kind_by_parser this node decorator w e :
  outcome (analyze this node decorator w) = Thrown e ->
  is_ConfigError e || is_TemplateParseError e = true ->
  (is_TemplateParseError e = true /\ is_ConfigError e = false
   /\ count_calls is_parse_call (calls (analyze this node decorator w)) = 1)
  \/ (is_ConfigError e = true /\ is_TemplateParseError e = false
      /\ count_calls is_parse_call (calls (analyze this node decorator w))
         = 0).
Proof.
  pose proof (analyze_run_of_result this node decorator w) as Hrun.
  destruct (analyze this node decorator w) as [[o w'] t].
  specialize (Hrun _ _ _ eq_refl). unfold outcome, calls. simpl.
  intros -> _. unfold count_calls.
  inversion Hrun; subst; unfold whitespace_calls;
    try (right; repeat split; reflexivity).
  - right. split; [apply template_type_error_is_ConfigError|].
    split; reflexivity.
  - left. split; [apply parse_error_is_TemplateParseError|].
    split; [reflexivity|].
    destruct (reflectObjectLiteral meta !! "preserveWhitespaces");
      reflexivity.
Qed.

(** X11. The only expressions that [analyze] evaluates are the [template]
    and the [preserveWhitespaces] properties of its one argument: no other
    field of the configuration object is resolved. *)
Theorem analyze_resolves_only_template_and_whitespace this node decorator w
    e :
  In (Call_staticallyResolve e) (calls (analyze this node decorator w)) ->
  exists meta,
    Decorator_args decorator = Some [meta]
    /\ (reflectObjectLiteral meta !! "template" = Some e
        \/ reflectObjectLiteral meta !! "preserveWhitespaces" = Some e).
Proof.
  intros Hin.
  pose proof (analyze_run_of_result this node decorator w) as Hrun.
  destruct (analyze this node decorator w) as [[o w'] t].
  specialize (Hrun _ _ _ eq_refl). unfold calls in Hin. simpl in Hin.
  destruct Hrun; use_checks; trace_cases; try discriminate;
    repeat match goal with
    | H : In _ (whitespace_calls _) |- _ =>
        apply whitespace_calls_field in H as (? & ? & ?)
    | H : Call_staticallyResolve _ = Call_staticallyResolve _ |- _ =>
        injection H as ->
    end; subst; eauto.
Qed.

(** X12. One analysis calls [extractDirectiveMetadata] at most once,
    [reflectObjectLiteral] at most once, [staticallyResolve] at most twice,
    [parseTemplate] at most once and [registerSelector] at most once, the
    parser always with the locator built from the file and the class
    name. *)
Theorem analyze_call_budget this node decorator w :
  let t := calls (analyze this node decorator w) in
  count_calls is_extract_call t <= 1
  /\ count_calls is_reflect_call t <= 1
  /\ count_calls is_resolve_call t <= 2
  /\ count_calls is_parse_call t <= 1
  /\ count_calls is_register_call t <= 1
  /\ forall template url pw,
       In (Call_parseTemplate template url pw) t -> url = template_url node.
Proof.
  intros t. subst t. repeat split.
  6:{ intros template url pw Hin.
      now destruct (parse_call_inversion _ _ _ _ _ _ _ Hin)
        as (? & ? & ? & _ & _ & _ & ? & _). }
  all: pose proof (analyze_run_of_result this node decorator w) as Hrun;
    destruct (analyze this node decorator w) as [[o w'] t];
    specialize (Hrun _ _ _ eq_refl); unfold calls, count_calls; simpl;
    destruct Hrun; unfold whitespace_calls;
    try destruct (reflectObjectLiteral _ !! "preserveWhitespaces");
    simpl; lia.
Qed.

(** X13. The message of a thrown error tells which check failed: the arity
    message means that the arguments are not a one-element array; the
    literal message that the one argument is not an object literal; the
    missing-template message that the checks before it passed and the
    object literal has no [template]; the whitespace message that the
    template resolved to a string and [preserveWhitespaces] is present and
    does not resolve to a boolean. *)
Theorem thrown_message_identifies_check this node decorator w :
  (outcome (analyze this node decorator w)
   = Thrown (Error "Incorrect number of arguments to @Component decorator")
   -> forall meta, Decorator_args decorator <> Some [meta])
  /\ (outcome (analyze this node decorator w)
      = Thrown (Error "Decorator argument must be literal.")
      -> exists meta,
           Decorator_args decorator = Some [meta]
           /\ ts_isObjectLiteralExpression meta = false)
  /\ (outcome (analyze this node decorator w)
      = Thrown (Error "For now, components must directly have a template.")
      -> exists meta dm,
           passes_argument_checks this node decorator meta dm
           /\ reflectObjectLiteral meta !! "template" = None)
  /\ (outcome (analyze this node decorator w)
      = Thrown
          (Error "preserveWhitespaces must resolve to a boolean if present")
      -> exists meta dm templateExpr templateStr e,
           passes_argument_checks this node decorator meta dm
           /\ reflectObjectLiteral meta !! "template" = Some templateExpr
           /\ staticallyResolve templateExpr (checker this)
              = VString templateStr
           /\ reflectObjectLiteral meta !! "preserveWhitespaces" = Some e
           /\ typeof (staticallyResolve e (checker this)) <> "boolean").
Proof.
  pose proof (analyze_run_of_result this node decorator w) as Hrun.
  destruct (analyze this node decorator w) as [[o w'] t].
  specialize (Hrun _ _ _ eq_refl). unfold outcome. simpl.
  repeat split; intros ->; inversion Hrun; subst;
    try match goal with
    | H : (_ +:+ _) = _ |- _ => simpl in H; discriminate H
    end;
    eauto 10.
Qed.

(** *** [compile] *)

(** X6. The merge of [compile] is a plain spread: whatever scope object the
    lookup returns, each of its properties, whatever its name, replaces the
    property of that name in the analysis, and the other properties of the
    analysis are passed on as they are; the result is packaged from what the
    code generator makes of this merged metadata. *)
Theorem compile_scope_properties_win this node
    (analysis scope : gmap string Value) w :
  lookupCompilationScope node (scopeRegistry w) = Some scope ->
  exists passed result,
    compile this node analysis w
    = (Returned result, w,
       [Call_lookupCompilationScope node;
        Call_compileComponentFromMetadata passed ConstantPool_new
          makeBindingParser])
    /\ result
       = package (compileComponentFromMetadata (maps w) passed
                    ConstantPool_new makeBindingParser)
    /\ forall k,
         passed !! k
         = match scope !! k with
           | Some v => Some v
           | None => analysis !! k
           end.
Proof.
  intros Hscope. unfold compile. unfold_effects. rewrite Hscope.
  destruct (compileComponentFromMetadata _ _ _ _) as [res pool] eqn:Hgen.
  eexists _, _. simpl. split; [reflexivity|]. split; [now rewrite Hgen|].
  intros k. unfold spread. rewrite lookup_union.
  destruct (scope !! k), (analysis !! k); reflexivity.
Qed.

(** X7. Compiling again with the metadata that a first [compile] passed to
    the code generator changes nothing: the scope is merged a second time
    with no effect, the generator receives the same metadata and a fresh
    pool, and the result is the same. *)
Theorem compile_again_passes_the_same this node
    (analysis passed : gmap string Value) w result :
  compile this node analysis w
  = (Returned result, w,
     [Call_lookupCompilationScope node;
      Call_compileComponentFromMetadata passed ConstantPool_new
        makeBindingParser]) ->
  compile this node passed w
  = (Returned result, w,
     [Call_lookupCompilationScope node;
      Call_compileComponentFromMetadata passed ConstantPool_new
        makeBindingParser]).
Proof.
  unfold compile. unfold_effects.
  destruct (lookupCompilationScope node (scopeRegistry w)) as [scope|].
  - assert (Hidem : spread (spread analysis scope) scope
                    = spread analysis scope).
    { unfold spread. apply map_eq. intros k. rewrite !lookup_union.
      destruct (scope !! k), (analysis !! k); reflexivity. }
    destruct (compileComponentFromMetadata _ (spread analysis scope) _ _)
      as [res pool] eqn:Hgen.
    simpl. intros [= <- <-]. rewrite Hidem, Hgen. reflexivity.
  - destruct (compileComponentFromMetadata _ analysis _ _)
      as [res pool] eqn:Hgen.
    simpl. intros [= <- <-]. rewrite Hgen. reflexivity.
Qed.


End Further.

(** ** The handler on the small host program *)

Import Demo.

Lemma compile_overrides_only_sibling_sets_witness :
  (exists passed result,
     compile handler Bar bar_metadata module_world
     = (Returned result, module_world,
        [Call_lookupCompilationScope Bar;
         Call_compileComponentFromMetadata passed [] tt])
     /\ result
        = package (compileComponentFromMetadata (maps module_world) passed
                     [] tt)
     /\ passed !! "selector" = Some (VString "bar")
     /\ passed !! "pipes" = Some (VMap 3%positive)
     /\ passed !! "directives" = Some (VMap 2%positive))
  /\ (exists passed result,
        compile handler Foo bar_metadata empty_world
        = (Returned result, empty_world,
           [Call_lookupCompilationScope Foo;
            Call_compileComponentFromMetadata passed [] tt])
        /\ result
           = package (compileComponentFromMetadata (maps empty_world) passed
                        [] tt)
        /\ passed = bar_metadata
        /\ sibling_pipes module_maps passed = ∅).
Proof.
  split.
  - destruct (compile_overrides_only_sibling_sets handler Bar bar_metadata
                module_world)
      as (passed & result & Hrun & Hresult & Hframe & Hpipes & Hdirectives
          & _).
    { intros scope Hscope. vm_compute in Hscope. injection Hscope as <-.
      exists 2%positive, 3%positive. vm_compute. reflexivity. }
    exists passed, result. split; [exact Hrun|]. split; [exact Hresult|].
    rewrite Hframe by discriminate. rewrite Hpipes, Hdirectives.
    vm_compute. repeat split.
  - destruct (compile_overrides_only_sibling_sets handler Foo bar_metadata
                empty_world)
      as (passed & result & Hrun & Hresult & _ & Hsame & Hempty).
    { intros scope Hscope. vm_compute in Hscope. discriminate. }
    exists passed, result. split; [exact Hrun|]. split; [exact Hresult|].
    split; [exact Hsame|].
    apply (Hempty _ _ eq_refl). vm_compute. reflexivity.
Defined.

Lemma placeholders_shared_counterexample :
  ~ placeholders_never_shared handler.
Proof.
  intros Hclaim.
  assert (HFoo : outcome (analyze handler Foo (component (Some [plain]))
                            empty_world)
                 = Returned
                     {| analysis :=
                          Some (component_metadata
                                  (<["selector" := VNull]>
                                     (<["name" := VString "Foo"]> ∅))
                                  (parse "<div></div>"
                                     "foo.ts#Foo/template.html" false)) |})
    by (vm_compute; reflexivity).
  assert (HBar : outcome (analyze handler Bar (component (Some [selected]))
                            empty_world)
                 = Returned {| analysis := Some bar_metadata |})
    by (vm_compute; reflexivity).
  assert (Hne : Foo <> Bar) by discriminate.
  apply (Hclaim _ _ _ _ _ _ _ _ Hne HFoo HBar
           "pipes" "directives" EMPTY_MAP EMPTY_MAP);
    auto; vm_compute; reflexivity.
Qed.

Lemma analyze_placeholders_are_EMPTY_MAP_witness :
  prop "pipes" bar_metadata = VMap EMPTY_MAP
  /\ prop "directives" bar_metadata = VMap EMPTY_MAP
  /\ maps (world_after (analyze handler Bar (component (Some [selected]))
                          empty_world))
     = module_maps
  /\ (module_maps !! EMPTY_MAP = Some ∅ ->
      sibling_pipes module_maps bar_metadata = ∅
      /\ sibling_directives module_maps bar_metadata = ∅).
Proof.
  apply (analyze_placeholders_are_EMPTY_MAP handler Bar
           (component (Some [selected])) empty_world bar_metadata).
  vm_compute. reflexivity.
Defined.

Lemma analyze_failure_registers_nothing_witness :
  world_after (analyze handler Bar (component (Some [selected_unclosed]))
                 empty_world)
  = empty_world
  /\ exists metadata,
       outcome (analyze handler Bar (component (Some [selected]))
                  empty_world)
       = Returned {| analysis := Some metadata |}.
Proof.
  split.
  - destruct (analyze_failure_registers_nothing handler Bar
                (component (Some [selected_unclosed])) empty_world)
      as [Hfail _].
    apply (Hfail (Error "Errors parsing template: unclosed tag div")).
    vm_compute. reflexivity.
  - destruct (analyze_failure_registers_nothing handler Bar
                (component (Some [selected])) empty_world)
      as [_ Hregistered].
    apply (Hregistered Bar (VString "bar")).
    vm_compute. do 5 right. left. reflexivity.
Defined.



Lemma parse_diagnostics_are_all_reported_witness :
  outcome (analyze handler Bar (component (Some [unclosed])) empty_world)
  = Thrown (Error "Errors parsing template: unclosed tag b, unclosed tag p")
  /\ includes "unclosed tag b"
       "Errors parsing template: unclosed tag b, unclosed tag p" = true
  /\ includes "unclosed tag p"
       "Errors parsing template: unclosed tag b, unclosed tag p" = true.
Proof.
  destruct (parse_diagnostics_are_all_reported handler Bar
              (component (Some [unclosed])) empty_world
              "<p><b>" "bar.ts#Bar/template.html" false
              ["unclosed tag b"; "unclosed tag p"])
    as (Hout & _ & Hall & _).
  - vm_compute. do 3 right. left. reflexivity.
  - reflexivity.
  - split; [exact Hout|].
    split; [apply (Hall "unclosed tag b") | apply (Hall "unclosed tag p")];
      simpl; tauto.
Defined.

Lemma string_template_not_always_parsed :
  ~ string_template_is_parsed handler Foo
      (component (Some [bad_whitespace])) empty_world.
Proof.
  intros Hclaim.
  destruct (Hclaim bad_whitespace
              (<["selector" := VNull]> (<["name" := VString "Foo"]> ∅))
              (StringLiteral "<div></div>") "<div></div>")
    as [pw Hin].
  - repeat split; vm_compute; reflexivity.
  - vm_compute. reflexivity.
  - reflexivity.
  - vm_compute in Hin. intuition discriminate.
Qed.

Lemma template_field_is_validated_witness :
  (exists e,
     outcome (analyze handler Foo (component (Some [no_template]))
                empty_world) = Thrown e
     /\ is_ConfigError e = true)
  /\ (exists e,
        outcome (analyze handler Foo (component (Some [template_by_name]))
                   empty_world) = Thrown e
        /\ includes "Foo" (JsError_message e) = true)
  /\ In (Call_parseTemplate "<div></div>" "foo.ts#Foo/template.html" false)
        (calls (analyze handler Foo (component (Some [plain])) empty_world))
  /\ outcome (analyze handler Foo (component (Some [bad_whitespace]))
                empty_world)
     = Thrown
         (Error "preserveWhitespaces must resolve to a boolean if present").
Proof.
  split; [|split; [|split]].
  - destruct (template_field_is_validated handler Foo
                (component (Some [no_template])) empty_world no_template
                (<["selector" := VString "foo"]>
                   (<["name" := VString "Foo"]> ∅)))
      as (Habsent & _ & _).
    + repeat split; vm_compute; reflexivity.
    + apply Habsent. vm_compute. reflexivity.
  - destruct (template_field_is_validated handler Foo
                (component (Some [template_by_name])) empty_world
                template_by_name
                (<["selector" := VNull]> (<["name" := VString "Foo"]> ∅)))
      as (_ & Hwrong & _).
    + repeat split; vm_compute; reflexivity.
    + destruct (Hwrong (Identifier "SOME_CONSTANT")) as (e & He & _ & Hn & _).
      * vm_compute. reflexivity.
      * vm_compute. discriminate.
      * exists e. split; [exact He | exact Hn].
  - destruct (template_field_is_validated handler Foo
                (component (Some [plain])) empty_world plain
                (<["selector" := VNull]> (<["name" := VString "Foo"]> ∅)))
      as (_ & _ & Hstring).
    + repeat split; vm_compute; reflexivity.
    + apply (Hstring (StringLiteral "<div></div>") "<div></div>");
        vm_compute; reflexivity.
  - destruct (template_field_is_validated handler Foo
                (component (Some [bad_whitespace])) empty_world
                bad_whitespace
                (<["selector" := VNull]> (<["name" := VString "Foo"]> ∅)))
      as (_ & _ & Hstring).
    + repeat split; vm_compute; reflexivity.
    + apply (Hstring (StringLiteral "<div></div>") "<div></div>");
        vm_compute; reflexivity.
Defined.

Lemma analyze_rejects_bad_arguments_witness :
  (exists e,
     analyze handler Foo (component (Some [plain; plain])) empty_world
     = (Thrown e, empty_world, [])
     /\ is_ConfigError e = true)
  /\ (exists e,
        analyze handler Foo (component None) empty_world
        = (Thrown e, empty_world, [])
        /\ is_ConfigError e = true)
  /\ (exists e,
        analyze handler Foo (component (Some [Identifier "CONFIG"]))
          empty_world
        = (Thrown e, empty_world, [])
        /\ is_ConfigError e = true
        /\ includes "argument must be literal" (JsError_message e) = true).
Proof.
  split; [|split].
  - apply (analyze_rejects_bad_arguments handler Foo
             (component (Some [plain; plain])) empty_world).
    intros args [= <-]. simpl. lia.
  - apply (analyze_rejects_bad_arguments handler Foo
             (component None) empty_world).
    intros args Hargs. discriminate Hargs.
  - apply (analyze_rejects_bad_arguments handler Foo
             (component (Some [Identifier "CONFIG"])) empty_world)
      with (meta := Identifier "CONFIG"); reflexivity.
Defined.

Lemma whitespace_option_passed_to_parser_witness :
  parser_receives handler Foo (component (Some [plain])) empty_world false
  /\ parsed_with handler Foo (component (Some [plain])) empty_world
       (<["selector" := VNull]> (<["name" := VString "Foo"]> ∅))
       "<div></div>" false
  /\ parser_receives handler Bar (component (Some [selected])) empty_world
       true
  /\ parsed_with handler Bar (component (Some [selected])) empty_world
       (<["selector" := VString "bar"]> (<["name" := VString "Bar"]> ∅))
       "<p></p>" true
  /\ In (Call_parseTemplate "<p></p>" "bar.ts#Bar/template.html" true)
        (calls (analyze handler Bar (component (Some [selected]))
                  empty_world))
  /\ parser_not_called handler Foo (component (Some [bad_whitespace]))
       empty_world.
Proof.
  destruct (whitespace_option_passed_to_parser handler Foo
              (component (Some [plain])) empty_world plain
              (<["selector" := VNull]> (<["name" := VString "Foo"]> ∅)))
    as (Habsent & _).
  { repeat split; vm_compute; reflexivity. }
  destruct Habsent as [Hfalse Hparsed_false]; [vm_compute; reflexivity|].
  destruct (whitespace_option_passed_to_parser handler Bar
              (component (Some [selected])) empty_world selected
              (<["selector" := VString "bar"]>
                 (<["name" := VString "Bar"]> ∅)))
    as (_ & Hboolean & _ & Hcalled).
  { repeat split; vm_compute; reflexivity. }
  destruct (Hboolean TrueKeyword true) as [Htrue Hparsed_true];
    [vm_compute; reflexivity | vm_compute; reflexivity |].
  destruct (whitespace_option_passed_to_parser handler Foo
              (component (Some [bad_whitespace])) empty_world
              bad_whitespace
              (<["selector" := VNull]> (<["name" := VString "Foo"]> ∅)))
    as (_ & _ & Hother & _).
  { repeat split; vm_compute; reflexivity. }
  destruct (Hother (StringLiteral "yes")) as [_ Hnot];
    [vm_compute; reflexivity | vm_compute; discriminate |].
  split; [exact Hfalse|].
  split; [apply (Hparsed_false (StringLiteral "<div></div>"));
          vm_compute; reflexivity|].
  split; [exact Htrue|].
  split; [apply (Hparsed_true (StringLiteral "<p></p>"));
          vm_compute; reflexivity|].
  split; [apply (Hcalled (StringLiteral "<p></p>") "<p></p>" true);
          vm_compute; reflexivity|].
  exact Hnot.
Defined.

Lemma analyze_skip_returns_empty_witness :
  analyze handler Foo (component (Some [opted_out])) empty_world
  = (Returned {| analysis := None |}, empty_world,
     [Call_extractDirectiveMetadata Foo (component (Some [opted_out]))]).
Proof.
  apply (analyze_skip_returns_empty handler Foo
           (component (Some [opted_out])) empty_world opted_out);
    vm_compute; reflexivity.
Defined.

Lemma analyze_viewQueries_empty_witness :
  bar_metadata !! "viewQueries" = Some (VArray []).
Proof.
  apply (analyze_viewQueries_empty handler Bar
           (component (Some [selected])) empty_world bar_metadata).
  vm_compute. reflexivity.
Defined.

(** *** Further properties on the small host program *)

Lemma detect_first_match_witness :
  detect [injectable; foreign_component; component (Some [plain]);
          component (Some [selected])]
  = Some (component (Some [plain])).
Proof.
  apply detect_first_match.
  exists [injectable; foreign_component], [component (Some [selected])].
  split; [reflexivity|]. split; [reflexivity|].
  intros x [<-|[<-|[]]]; reflexivity.
Defined.

Lemma detect_nothing_iff_witness :
  detect [injectable; foreign_component] = None
  /\ detect (@nil Decorator) = None.
Proof.
  split; apply detect_nothing_iff.
  - intros d [<-|[<-|[]]]; [left; discriminate | right; reflexivity].
  - intros d [].
Defined.

Lemma analyze_succeeds_iff_witness :
  outcome (analyze handler Bar (component (Some [selected])) empty_world)
  = Returned {| analysis := Some bar_metadata |}.
Proof.
  apply analyze_succeeds_iff.
  exists selected,
    (<["selector" := VString "bar"]> (<["name" := VString "Bar"]> ∅)),
    (StringLiteral "<p></p>"), "<p></p>", true.
  repeat split; vm_compute; reflexivity.
Defined.

Lemma analyze_registers_selector_of_metadata_witness :
  world_after (analyze handler Bar (component (Some [selected])) empty_world)
  = {| scopeRegistry :=
         registerSelector Bar (VString "bar") (scopeRegistry empty_world);
       maps := maps empty_world |}
  /\ world_after (analyze handler Foo (component (Some [plain])) empty_world)
     = empty_world.
Proof.
  split.
  - destruct (analyze_registers_selector_of_metadata handler Bar
                (component (Some [selected])) empty_world bar_metadata)
      as [_ Hregistered].
    + vm_compute. reflexivity.
    + apply Hregistered. vm_compute. discriminate.
  - destruct (analyze_registers_selector_of_metadata handler Foo
                (component (Some [plain])) empty_world
                (component_metadata
                   (<["selector" := VNull]> (<["name" := VString "Foo"]> ∅))
                   (parseTemplate "<div></div>" "foo.ts#Foo/template.html"
                      false)))
      as [Hnull _].
    + vm_compute. reflexivity.
    + apply Hnull. vm_compute. reflexivity.
Defined.

Lemma analyze_keeps_directive_metadata_witness :
  exists dm template,
    extract Bar (component (Some [selected])) = Some dm
    /\ (forall k, set_by_analyze k = false -> bar_metadata !! k = dm !! k)
    /\ bar_metadata !! "template" = Some (VTemplate template)
    /\ template_errors template = None.
Proof.
  destruct (analyze_keeps_directive_metadata handler Bar
              (component (Some [selected])) empty_world bar_metadata)
    as (dm & template & Hdm & Hframe & Ht & Herr & _).
  - vm_compute. reflexivity.
  - exists dm, template. auto.
Defined.

Lemma compile_scope_properties_win_witness :
  exists passed result,
    compile handler Foo bar_metadata odd_world
    = (Returned result, odd_world,
       [Call_lookupCompilationScope Foo;
        Call_compileComponentFromMetadata passed [] tt])
    /\ result
       = package (compileComponentFromMetadata (maps odd_world) passed
                    [] tt)
    /\ passed !! "template" = Some VNull
    /\ passed !! "pipes" = Some (VMap 3%positive)
    /\ passed !! "directives" = Some (VMap EMPTY_MAP).
Proof.
  destruct (compile_scope_properties_win handler Foo bar_metadata odd_scope
              odd_world)
    as (passed & result & Hrun & Hresult & Hprops).
  - vm_compute. reflexivity.
  - exists passed, result. split; [exact Hrun|]. split; [exact Hresult|].
    rewrite !Hprops. vm_compute. repeat split.
Defined.

Lemma compile_again_passes_the_same_witness :
  exists passed result,
    compile handler Bar bar_metadata module_world
    = (Returned result, module_world,
       [Call_lookupCompilationScope Bar;
        Call_compileComponentFromMetadata passed [] tt])
    /\ compile handler Bar passed module_world
       = (Returned result, module_world,
          [Call_lookupCompilationScope Bar;
           Call_compileComponentFromMetadata passed [] tt]).
Proof.
  assert (Hfirst :
    compile handler Bar bar_metadata module_world
    = (Returned
         {| CompileResult_name := "ngComponentDef";
            CompileResult_initializer := "bar,bar";
            CompileResult_statements := ["const _c0 = [];"];
            CompileResult_type := "ComponentDef" |},
       module_world,
       [Call_lookupCompilationScope Bar;
        Call_compileComponentFromMetadata (spread bar_metadata bar_scope)
          [] tt]))
    by (vm_compute; reflexivity).
  eexists _, _. split; [exact Hfirst|].
  apply (compile_again_passes_the_same handler Bar bar_metadata _
           module_world _ Hfirst).
Defined.


Lemma analyze_empty_diagnostics_throw_witness :
  outcome (@analyze types quiet_collaborators registry handler Bar
             (component (Some [selected_blank])) empty_world)
  = Thrown (Error "Errors parsing template: ")
  /\ world_after (@analyze types quiet_collaborators registry handler Bar
                    (component (Some [selected_blank])) empty_world)
     = empty_world.
Proof.
  destruct (@analyze_empty_diagnostics_throw types quiet_collaborators
              registry handler Bar (component (Some [selected_blank]))
              empty_world "" "bar.ts#Bar/template.html" false)
    as (Hout & Hworld & _).
  - vm_compute. do 3 right. left. reflexivity.
  - reflexivity.
  - split; assumption.
Defined.

Lemma thrown_error_kind_by_parser_witness :
  (is_TemplateParseError
     (Error "Errors parsing template: unclosed tag b, unclosed tag p") = true
   /\ count_calls is_parse_call
        (calls (analyze handler Bar (component (Some [unclosed]))
                  empty_world)) = 1)
  \/ (is_ConfigError
        (Error "Errors parsing template: unclosed tag b, unclosed tag p")
      = true
      /\ count_calls is_parse_call
           (calls (analyze handler Bar (component (Some [unclosed]))
                     empty_world)) = 0).
Proof.
  destruct (thrown_error_kind_by_parser handler Bar
              (component (Some [unclosed])) empty_world
              (Error "Errors parsing template: unclosed tag b, unclosed tag p"))
    as [(Hparse & _ & Hcount)|(Hconfig & _ & Hcount)].
  - vm_compute. reflexivity.
  - vm_compute. reflexivity.
  - left. split; assumption.
  - right. split; assumption.
Defined.

Lemma analyze_resolves_only_template_and_whitespace_witness :
  exists meta,
    Decorator_args (component (Some [selected])) = Some [meta]
    /\ (reflectObjectLiteral meta !! "template" = Some TrueKeyword
        \/ reflectObjectLiteral meta !! "preserveWhitespaces"
           = Some TrueKeyword).
Proof.
  apply (analyze_resolves_only_template_and_whitespace handler Bar
           (component (Some [selected])) empty_world TrueKeyword).
  vm_compute. do 3 right. left. reflexivity.
Defined.

Lemma analyze_call_budget_witness :
  count_calls is_resolve_call
    (calls (analyze handler Bar (component (Some [selected])) empty_world))
  <= 2
  /\ count_calls is_parse_call
       (calls (analyze handler Bar (component (Some [selected]))
                 empty_world))
     <= 1
  /\ forall template url pw,
       In (Call_parseTemplate template url pw)
          (calls (analyze handler Bar (component (Some [selected]))
                    empty_world)) ->
       url = "bar.ts#Bar/template.html".
Proof.
  destruct (analyze_call_budget handler Bar (component (Some [selected]))
              empty_world)
    as (_ & _ & Hresolve & Hparse & _ & Hurl).
  split; [exact Hresolve|]. split; [exact Hparse | exact Hurl].
Defined.

Lemma thrown_message_identifies_check_witness :
  (forall meta, Decorator_args (component (Some [plain; plain]))
                <> Some [meta])
  /\ (exists meta,
        Decorator_args (component (Some [Identifier "CONFIG"])) = Some [meta]
        /\ ts_isObjectLiteralExpression meta = false)
  /\ (exists meta dm,
        passes_argument_checks handler Foo (component (Some [no_template]))
          meta dm
        /\ reflectObjectLiteral meta !! "template" = None)
  /\ (exists meta dm templateExpr templateStr e,
        passes_argument_checks handler Foo
          (component (Some [bad_whitespace])) meta dm
        /\ reflectObjectLiteral meta !! "template" = Some templateExpr
        /\ staticallyResolve templateExpr (checker handler)
           = VString templateStr
        /\ reflectObjectLiteral meta !! "preserveWhitespaces" = Some e
        /\ typeof (staticallyResolve e (checker handler)) <> "boolean").
Proof.
  split; [|split; [|split]].
  - apply (thrown_message_identifies_check handler Foo
             (component (Some [plain; plain])) empty_world).
    vm_compute. reflexivity.
  - apply (thrown_message_identifies_check handler Foo
             (component (Some [Identifier "CONFIG"])) empty_world).
    vm_compute. reflexivity.
  - apply (thrown_message_identifies_check handler Foo
             (component (Some [no_template])) empty_world).
    vm_compute. reflexivity.
  - apply (thrown_message_identifies_check handler Foo
             (component (Some [bad_whitespace])) empty_world).
    vm_compute. reflexivity.
Defined.
